(** * custom_exporter.py: a shallow embedding and its verified properties

    The exporter polls five public HTTP sources and republishes what it
    reads as Prometheus gauges.  This file embeds [src/custom_exporter.py]
    function by function:

    - decoded JSON payloads are values of [pyobj];
    - Python floats are IEEE binary64 numbers, Rocq's primitive [float];
    - Python statements that may raise run in an exception-and-state
      monad [M]; [try ... except Exception] is [try_except];
    - the outside world (network answers, the two clocks) and the three
      library routines whose text is not part of the repository
      ([datetime.fromisoformat], [float] on a [str], [str] on an object)
      are the fields of an environment [env]; every theorem holds for
      every environment. *)

From Stdlib Require Import ZArith PrimFloat SpecFloat FloatOps String Ascii.
From stdpp Require Import base option list gmap strings.

Set Warnings "-register-all,-inexact-float".

Local Open Scope string_scope.
Local Open Scope Z_scope.

(** ** Python values *)

(** What [r.json()] can return. A [dict] is the list of its items in
    insertion order; the keys of a decoded object are distinct, and
    [dict_lookup] returns the binding of the first matching key. *)
Inductive pyobj : Type :=
  | PNone
  | PBool (b : bool)
  | PInt (z : Z)
  | PFloat (f : float)
  | PStr (s : string)
  | PList (l : list pyobj)
  | PDict (d : list (string * pyobj)).

(** The exceptions (all subclasses of [Exception]) the code can meet. *)
Inductive exn : Type :=
  | TypeError
  | ValueError
  | AttributeError
  | KeyError
  | IndexError
  | OverflowError
  | RequestException
  | HTTPError (status : Z)
  | JSONDecodeError.

(** Outcome of an expression that may raise. *)
Inductive res (A : Type) : Type :=
  | Ok (a : A)
  | Raise (e : exn).
Arguments Ok {A} a.
Arguments Raise {A} e.

(** Evaluate [r]; go on with [f] unless it raised. *)
Definition res_bind {A B} (r : res A) (f : A -> res B) : res B :=
  match r with
  | Ok a => f a
  | Raise e => Raise e
  end.

Declare Scope expr_scope.
Delimit Scope expr_scope with expr.
Notation "x <- y ;; z" := (res_bind y (fun x => z))
  (at level 20, y at level 99, z at level 200, only parsing) : expr_scope.

Definition is_none (v : pyobj) : bool :=
  match v with
  | PNone => true
  | _ => false
  end.

(** [bool(v)]: the truth value used by [if v], [not v], [v and ...]. *)
Definition truthy (v : pyobj) : bool :=
  match v with
  | PNone => false
  | PBool b => b
  | PInt z => negb (z =? 0)
  | PFloat f => negb (PrimFloat.eqb f 0%float)
  | PStr s => match s with EmptyString => false | _ => true end
  | PList l => match l with [] => false | _ => true end
  | PDict d => match d with [] => false | _ => true end
  end.

Fixpoint dict_lookup (k : string) (d : list (string * pyobj)) : option pyobj :=
  match d with
  | [] => None
  | (k', v) :: d' => if String.eqb k' k then Some v else dict_lookup k d'
  end.

Definition is_str (k : string) (v : pyobj) : bool :=
  match v with
  | PStr s => String.eqb s k
  | _ => false
  end.

Fixpoint is_substring (p s : string) : bool :=
  String.prefix p s ||
  match s with
  | EmptyString => false
  | String _ s' => is_substring p s'
  end.

(** [k in c] for a [str] key [k]. *)
Definition py_contains (k : string) (c : pyobj) : res bool :=
  match c with
  | PDict d => Ok (bool_decide (is_Some (dict_lookup k d)))
  | PList l => Ok (existsb (is_str k) l)
  | PStr s => Ok (is_substring k s)
  | _ => Raise TypeError
  end.

(** [c[k]] for a [str] key [k]. *)
Definition py_getitem (c : pyobj) (k : string) : res pyobj :=
  match c with
  | PDict d =>
      match dict_lookup k d with
      | Some v => Ok v
      | None => Raise KeyError
      end
  | _ => Raise TypeError
  end.

(** [c.get(k)]: only a [dict] has the method. *)
Definition py_get (c : pyobj) (k : string) : res pyobj :=
  match c with
  | PDict d => Ok (default PNone (dict_lookup k d))
  | _ => Raise AttributeError
  end.

(** [float(n)] for a Python [int]: round to nearest even, [OverflowError]
    beyond the binary64 range. *)
Definition float_of_int (z : Z) : res float :=
  match binary_normalize 53 1024 z 0 false with
  | S754_infinity _ => Raise OverflowError
  | s => Ok (SF2Prim s)
  end.

(** [ts.replace("Z", "+00:00")] *)
Fixpoint replace_Z (s : string) : string :=
  match s with
  | EmptyString => EmptyString
  | String c s' =>
      if Ascii.eqb c "Z"%char then "+00:00" ++ replace_Z s'
      else String c (replace_Z s')
  end.

(** ** Datetimes *)

(** A [datetime]: its calendar fields flattened to microseconds since
    0001-01-01T00:00:00, and the UTC offset of its [tzinfo] in
    microseconds ([None] for a naive datetime). *)
Record datetime : Type := {
  wall : Z;
  tzinfo : option Z
}.

(** [datetime.max] is 9999-12-31T23:59:59.999999, day 3652059. *)
Definition MAX_WALL : Z := 3652059 * 86400 * 1000000 - 1.

(** [dt.replace(tzinfo=timezone.utc)] *)
Definition replace_tz_utc (dt : datetime) : datetime :=
  {| wall := wall dt; tzinfo := Some 0 |}.

(** [dt.astimezone(timezone.utc)] for an aware [dt]: subtracting the
    offset raises [OverflowError] outside [datetime.min, datetime.max]. *)
Definition astimezone_utc (dt : datetime) : res datetime :=
  let w := wall dt - default 0 (tzinfo dt) in
  if (0 <=? w) && (w <=? MAX_WALL)
  then Ok {| wall := w; tzinfo := Some 0 |}
  else Raise OverflowError.

(** The absolute instant of an aware datetime, in microseconds. *)
Definition instant (dt : datetime) : Z := wall dt - default 0 (tzinfo dt).

(** [a <= b] on aware datetimes compares instants. *)
Definition dt_le (a b : datetime) : bool := instant a <=? instant b.

(** ** The store and the world *)

(** A line printed by [log_warn]: the text before the exception, and the
    exception formatted after it. *)
Inductive log_entry : Type :=
  | Warn (msg : string) (e : exn).

(** The answer of the network to one [session.get]. *)
Inductive net_result : Type :=
  | NetError
  | Response (status_code : Z) (body : option pyobj).

(** Library routines and the outside world. [http n url] is the answer to
    the [n]-th request of the run; [time_time k] and [utc_now k] are what
    [time.time()] and [datetime.now(timezone.utc)] return when they are
    the [k]-th clock read of the run. *)
Record env : Type := {
  fromisoformat : string -> option datetime;
  str_to_float : string -> option float;
  py_str : pyobj -> string;
  http : nat -> string -> net_result;
  time_time : nat -> float;
  utc_now : nat -> Z
}.

(** Module-level state. Unlabelled gauges are keyed by metric name and
    have no entry until they are set; the children of a labelled metric
    are keyed by their label value and exist from the first [labels]
    call. [log], [requests] and [sleeps] record the calls of [log_warn],
    [session.get] and [time.sleep], latest first. *)
Record state : Type := {
  gauges : gmap string float;
  so_tag_count : gmap string float;
  api_success_total : gmap string nat;
  api_fail_total : gmap string nat;
  api_latency_seconds : gmap string (list float);
  api_last_scrape_timestamp_seconds : gmap string float;
  LAST_SO_POLL : float;
  log : list log_entry;
  requests : list string;
  ticks : nat;
  sleeps : list Z
}.

Definition SCRAPE_INTERVAL : Z := 20.
Definition SO_MIN_PERIOD : float := 600%float.

Definition initial_state : state :=
  {| gauges := ∅; so_tag_count := ∅;
     api_success_total := ∅; api_fail_total := ∅;
     api_latency_seconds := ∅; api_last_scrape_timestamp_seconds := ∅;
     LAST_SO_POLL := 0%float;
     log := []; requests := []; ticks := 0%nat; sleeps := [] |}.

(** Field updates of [state]. *)
Definition set_gauges (x : gmap string float) (st : state) : state :=
  {| gauges := x; so_tag_count := so_tag_count st;
     api_success_total := api_success_total st;
     api_fail_total := api_fail_total st;
     api_latency_seconds := api_latency_seconds st;
     api_last_scrape_timestamp_seconds := api_last_scrape_timestamp_seconds st;
     LAST_SO_POLL := LAST_SO_POLL st; log := log st;
     requests := requests st; ticks := ticks st; sleeps := sleeps st |}.

Definition set_so_tag_count (x : gmap string float) (st : state) : state :=
  {| gauges := gauges st; so_tag_count := x;
     api_success_total := api_success_total st;
     api_fail_total := api_fail_total st;
     api_latency_seconds := api_latency_seconds st;
     api_last_scrape_timestamp_seconds := api_last_scrape_timestamp_seconds st;
     LAST_SO_POLL := LAST_SO_POLL st; log := log st;
     requests := requests st; ticks := ticks st; sleeps := sleeps st |}.

Definition set_api_success_total (x : gmap string nat) (st : state) : state :=
  {| gauges := gauges st; so_tag_count := so_tag_count st;
     api_success_total := x;
     api_fail_total := api_fail_total st;
     api_latency_seconds := api_latency_seconds st;
     api_last_scrape_timestamp_seconds := api_last_scrape_timestamp_seconds st;
     LAST_SO_POLL := LAST_SO_POLL st; log := log st;
     requests := requests st; ticks := ticks st; sleeps := sleeps st |}.

Definition set_api_fail_total (x : gmap string nat) (st : state) : state :=
  {| gauges := gauges st; so_tag_count := so_tag_count st;
     api_success_total := api_success_total st;
     api_fail_total := x;
     api_latency_seconds := api_latency_seconds st;
     api_last_scrape_timestamp_seconds := api_last_scrape_timestamp_seconds st;
     LAST_SO_POLL := LAST_SO_POLL st; log := log st;
     requests := requests st; ticks := ticks st; sleeps := sleeps st |}.

Definition set_api_latency_seconds (x : gmap string (list float)) (st : state) : state :=
  {| gauges := gauges st; so_tag_count := so_tag_count st;
     api_success_total := api_success_total st;
     api_fail_total := api_fail_total st;
     api_latency_seconds := x;
     api_last_scrape_timestamp_seconds := api_last_scrape_timestamp_seconds st;
     LAST_SO_POLL := LAST_SO_POLL st; log := log st;
     requests := requests st; ticks := ticks st; sleeps := sleeps st |}.

Definition set_api_last_scrape (x : gmap string float) (st : state) : state :=
  {| gauges := gauges st; so_tag_count := so_tag_count st;
     api_success_total := api_success_total st;
     api_fail_total := api_fail_total st;
     api_latency_seconds := api_latency_seconds st;
     api_last_scrape_timestamp_seconds := x;
     LAST_SO_POLL := LAST_SO_POLL st; log := log st;
     requests := requests st; ticks := ticks st; sleeps := sleeps st |}.

Definition set_LAST_SO_POLL (x : float) (st : state) : state :=
  {| gauges := gauges st; so_tag_count := so_tag_count st;
     api_success_total := api_success_total st;
     api_fail_total := api_fail_total st;
     api_latency_seconds := api_latency_seconds st;
     api_last_scrape_timestamp_seconds := api_last_scrape_timestamp_seconds st;
     LAST_SO_POLL := x; log := log st;
     requests := requests st; ticks := ticks st; sleeps := sleeps st |}.

Definition set_log (x : list log_entry) (st : state) : state :=
  {| gauges := gauges st; so_tag_count := so_tag_count st;
     api_success_total := api_success_total st;
     api_fail_total := api_fail_total st;
     api_latency_seconds := api_latency_seconds st;
     api_last_scrape_timestamp_seconds := api_last_scrape_timestamp_seconds st;
     LAST_SO_POLL := LAST_SO_POLL st; log := x;
     requests := requests st; ticks := ticks st; sleeps := sleeps st |}.

Definition set_requests (x : list string) (st : state) : state :=
  {| gauges := gauges st; so_tag_count := so_tag_count st;
     api_success_total := api_success_total st;
     api_fail_total := api_fail_total st;
     api_latency_seconds := api_latency_seconds st;
     api_last_scrape_timestamp_seconds := api_last_scrape_timestamp_seconds st;
     LAST_SO_POLL := LAST_SO_POLL st; log := log st;
     requests := x; ticks := ticks st; sleeps := sleeps st |}.

Definition set_ticks (x : nat) (st : state) : state :=
  {| gauges := gauges st; so_tag_count := so_tag_count st;
     api_success_total := api_success_total st;
     api_fail_total := api_fail_total st;
     api_latency_seconds := api_latency_seconds st;
     api_last_scrape_timestamp_seconds := api_last_scrape_timestamp_seconds st;
     LAST_SO_POLL := LAST_SO_POLL st; log := log st;
     requests := requests st; ticks := x; sleeps := sleeps st |}.

Definition set_sleeps (x : list Z) (st : state) : state :=
  {| gauges := gauges st; so_tag_count := so_tag_count st;
     api_success_total := api_success_total st;
     api_fail_total := api_fail_total st;
     api_latency_seconds := api_latency_seconds st;
     api_last_scrape_timestamp_seconds := api_last_scrape_timestamp_seconds st;
     LAST_SO_POLL := LAST_SO_POLL st; log := log st;
     requests := requests st; ticks := ticks st; sleeps := x |}.

(** ** The monad of statements *)

(** A statement takes the state and returns a value or raises; the
    state it leaves behind is kept in both cases. *)
Definition M (A : Type) : Type := state -> res A * state.

Definition ret {A} (a : A) : M A := fun st => (Ok a, st).

(** [m] then [f]: an exception raised by [m] skips [f]. *)
Definition bind {A B} (m : M A) (f : A -> M B) : M B :=
  fun st =>
    match m st with
    | (Ok a, st') => f a st'
    | (Raise e, st') => (Raise e, st')
    end.

Declare Scope stmt_scope.
Delimit Scope stmt_scope with stmt.
Bind Scope stmt_scope with M.
Notation "x <- y ;; z" := (bind y (fun x => z))
  (at level 20, y at level 99, z at level 200, only parsing) : stmt_scope.
Notation "' p <- y ;; z" := (bind y (fun x => match x with p => z end))
  (at level 20, p pattern, y at level 99, z at level 200, only parsing)
  : stmt_scope.
Notation "y ;; z" := (bind y (fun _ => z))
  (at level 100, z at level 200, only parsing, right associativity)
  : stmt_scope.
Local Open Scope stmt_scope.

(** An expression that touches no state. *)
Definition lift {A} (r : res A) : M A := fun st => (r, st).

(** [try: body  except Exception as e: handler e] *)
Definition try_except {A} (body : M A) (handler : exn -> M A) : M A :=
  fun st =>
    match body st with
    | (Ok a, st') => (Ok a, st')
    | (Raise e, st') => handler e st'
    end.

(** [log_warn(f"{msg}{e}")] *)
Definition log_warn (msg : string) (e : exn) : M unit :=
  fun st => (Ok tt, set_log (Warn msg e :: log st) st).

(** [if err: log_warn(f"{msg}{err}")] *)
Definition log_warn_if (msg : string) (err : option exn) : M unit :=
  match err with
  | Some e => log_warn msg e
  | None => ret tt
  end.

(** [g.set(x)] on the unlabelled gauge named [g]. *)
Definition Gauge_set (g : string) (x : float) : M unit :=
  fun st => (Ok tt, set_gauges (<[g := x]> (gauges st)) st).

(** The children of a labelled gauge after [labels] is called with [t]:
    the child is made, with value 0, the first time. *)
Definition touch (t : string) (m : gmap string float) : gmap string float :=
  match m !! t with
  | Some _ => m
  | None => <[t := 0%float]> m
  end.

(** [so_tag_count.labels(tag=t)] *)
Definition so_tag_count_labels (t : string) : M unit :=
  fun st => (Ok tt, set_so_tag_count (touch t (so_tag_count st)) st).

(** [.set(x)] on the child of [so_tag_count] for the tag [t]. *)
Definition so_tag_count_set (t : string) (x : float) : M unit :=
  fun st => (Ok tt, set_so_tag_count (<[t := x]> (so_tag_count st)) st).

(** [api_success_total.labels(api).inc()] *)
Definition api_success_inc (api : string) : M unit :=
  fun st =>
    (Ok tt,
     set_api_success_total
       (<[api := S (default 0%nat (api_success_total st !! api))]>
          (api_success_total st)) st).

(** [api_fail_total.labels(api).inc()] *)
Definition api_fail_inc (api : string) : M unit :=
  fun st =>
    (Ok tt,
     set_api_fail_total
       (<[api := S (default 0%nat (api_fail_total st !! api))]>
          (api_fail_total st)) st).

(** [api_latency_seconds.labels(api).observe(x)] *)
Definition api_latency_observe (api : string) (x : float) : M unit :=
  fun st =>
    (Ok tt,
     set_api_latency_seconds
       (<[api := x :: default [] (api_latency_seconds st !! api)]>
          (api_latency_seconds st)) st).

(** [api_last_scrape_timestamp_seconds.labels(api).set(x)] *)
Definition api_last_scrape_set (api : string) (x : float) : M unit :=
  fun st =>
    (Ok tt,
     set_api_last_scrape
       (<[api := x]> (api_last_scrape_timestamp_seconds st)) st).

(** Reading and assigning the global [LAST_SO_POLL]. *)
Definition read_LAST_SO_POLL : M float :=
  fun st => (Ok (LAST_SO_POLL st), st).

Definition write_LAST_SO_POLL (x : float) : M unit :=
  fun st => (Ok tt, set_LAST_SO_POLL x st).

(** [time.sleep(d)] *)
Definition time_sleep (d : Z) : M unit :=
  fun st => (Ok tt, set_sleeps (d :: sleeps st) st).

(** ** The program *)

(** [LAT] and [LON] as the f-strings of the URLs format them. *)
Definition LAT : string := "51.1694".
Definition LON : string := "71.4491".

Definition weather_url : string :=
  "https://api.open-meteo.com/v1/forecast"
  ++ "?latitude=" ++ LAT ++ "&longitude=" ++ LON
  ++ "&current=temperature_2m,wind_speed_10m,relative_humidity_2m"
  ++ "&timezone=auto".

Definition air_url_current : string :=
  "https://air-quality-api.open-meteo.com/v1/air-quality"
  ++ "?latitude=" ++ LAT ++ "&longitude=" ++ LON
  ++ "&current=pm10,pm2_5,us_aqi&timezone=auto".

Definition air_url_hourly : string :=
  "https://air-quality-api.open-meteo.com/v1/air-quality"
  ++ "?latitude=" ++ LAT ++ "&longitude=" ++ LON
  ++ "&hourly=pm10,pm2_5,us_aqi&timezone=auto".

Definition fx_url : string :=
  "https://api.frankfurter.app/latest?from=USD&to=KZT,EUR".

Definition btc_url : string :=
  "https://api.binance.com/api/v3/ticker/price?symbol=BTCUSDT".

Definition eth_url : string :=
  "https://api.binance.com/api/v3/ticker/price?symbol=ETHUSDT".

Definition so_url : string :=
  "https://api.stackexchange.com/2.3/tags/tensorflow;linux/info?site=stackoverflow".

(** Truth value of the third component of [timed_get]'s result: an
    exception object is true, [None] is false. *)
Definition raised (err : option exn) : bool :=
  match err with
  | Some _ => true
  | None => false
  end.

(** [r.raise_for_status()] *)
Definition raise_for_status (status_code : Z) : res unit :=
  if (400 <=? status_code) && (status_code <? 600)
  then Raise (HTTPError status_code)
  else Ok tt.

(** [r.json()] *)
Definition response_json (body : option pyobj) : res pyobj :=
  match body with
  | Some v => Ok v
  | None => Raise JSONDecodeError
  end.

(** [for item in v]: the items the loop visits. *)
Definition py_iter (v : pyobj) : res (list pyobj) :=
  match v with
  | PList l => Ok l
  | PDict d => Ok (map (fun kv => PStr (fst kv)) d)
  | PStr s => Ok (map (fun c => PStr (String c EmptyString)) (list_ascii_of_string s))
  | _ => Raise TypeError
  end.

Section Exporter.

Context (E : env).

(** [float(v)] *)
Definition py_float (v : pyobj) : res float :=
  match v with
  | PNone => Raise TypeError
  | PBool b => Ok (if b then 1%float else 0%float)
  | PInt z => float_of_int z
  | PFloat f => Ok f
  | PStr s =>
      match str_to_float E s with
      | Some f => Ok f
      | None => Raise ValueError
      end
  | PList _ => Raise TypeError
  | PDict _ => Raise TypeError
  end.

(** The label value [labels(tag=v)] stores: [str(v)]. *)
Definition label_value (v : pyobj) : string :=
  match v with
  | PStr s => s
  | _ => py_str E v
  end.

(** [time.time()] *)
Definition py_time_time : M float :=
  fun st => (Ok (time_time E (ticks st)), set_ticks (S (ticks st)) st).

(** [datetime.now(timezone.utc)] *)
Definition datetime_now_utc : M datetime :=
  fun st =>
    (Ok {| wall := utc_now E (ticks st); tzinfo := Some 0 |},
     set_ticks (S (ticks st)) st).

(** [session.get(url, timeout=10)]: the status code and the decoded body
    of the response, or the exception of the transport. *)
Definition session_get (url : string) : M (Z * option pyobj) :=
  fun st =>
    let st' := set_requests (url :: requests st) st in
    match http E (length (requests st)) url with
    | NetError => (Raise RequestException, st')
    | Response status_code body => (Ok (status_code, body), st')
    end.

Definition timed_get (api_name url : string)
  : M (pyobj * float * option exn) :=
  start <- py_time_time ;;
  try_except
    (r <- session_get url ;;
     lift (raise_for_status (fst r)) ;;
     data <- lift (response_json (snd r)) ;;
     api_success_inc api_name ;;
     t <- py_time_time ;;
     ret (data, PrimFloat.sub t start, None))
    (fun e =>
     api_fail_inc api_name ;;
     t <- py_time_time ;;
     ret (PNone, PrimFloat.sub t start, Some e)).

Definition datetime_fromisoformat (s : string) : res datetime :=
  match fromisoformat E s with
  | Some dt => Ok dt
  | None => Raise ValueError
  end.

(** [ts.replace("Z", "+00:00")]: only a [str] has the method. *)
Definition str_replace_Z (ts : pyobj) : res string :=
  match ts with
  | PStr s => Ok (replace_Z s)
  | _ => Raise AttributeError
  end.

Definition _parse_iso_ts (ts : pyobj) : option datetime :=
  match
    (s <- str_replace_Z ts ;;
     dt <- datetime_fromisoformat s ;;
     match tzinfo dt with
     | None => Ok (replace_tz_utc dt)
     | Some _ => astimezone_utc dt
     end)%expr
  with
  | Ok dt => Some dt
  | Raise _ => None
  end.

(** The loop [for i in range(len(times) - 1, -1, -1)] of
    [_last_past_value], with [n] indices left to visit: it looks at index
    [n - 1] and goes on with [n - 1] indices. An index outside a list
    raises [IndexError]; this is never reached when the lengths agree. *)
Fixpoint scan_back (now_utc : datetime) (times values : list pyobj) (n : nat)
  : res (option float) :=
  match n with
  | O => Ok None
  | S i =>
      match times !! i with
      | None => Raise IndexError
      | Some ts =>
          match _parse_iso_ts ts with
          | None => scan_back now_utc times values i
          | Some dt =>
              if dt_le dt now_utc then
                match values !! i with
                | None => Raise IndexError
                | Some v =>
                    if is_none v then scan_back now_utc times values i
                    else
                      match py_float v with
                      | Ok x => Ok (Some x)
                      | Raise _ => Ok None
                      end
                end
              else scan_back now_utc times values i
          end
      end
  end.

Definition _last_past_value (hourly : pyobj) (key : string) : M (option float) :=
  times <- lift (py_get hourly "time") ;;
  values <- lift (py_get hourly key) ;;
  match times, values with
  | PList ts, PList vs =>
      if negb (length ts =? length vs)%nat || negb (truthy times)
      then ret None
      else
        now_utc <- datetime_now_utc ;;
        lift (scan_back now_utc ts vs (length ts))
  | _, _ => ret None
  end.

(** [if k in c: g.set(conv(float(c[k])))] *)
Definition set_if_present (g k : string) (conv : float -> float) (c : pyobj)
  : M unit :=
  b <- lift (py_contains k c) ;;
  if b then
    v <- lift (py_getitem c k) ;;
    x <- lift (py_float v) ;;
    Gauge_set g (conv x)
  else ret tt.

(** [if k in c and c[k] is not None: g.set(float(c[k]))] *)
Definition set_if_not_none (g k : string) (c : pyobj) : M unit :=
  b <- lift (py_contains k c) ;;
  if b then
    v <- lift (py_getitem c k) ;;
    if is_none v then ret tt
    else
      v' <- lift (py_getitem c k) ;;
      x <- lift (py_float v') ;;
      Gauge_set g x
  else ret tt.

(** [if v is not None: g.set(v)] *)
Definition set_if_some (g : string) (v : option float) : M unit :=
  match v with
  | Some x => Gauge_set g x
  | None => ret tt
  end.

(** The test [err or not data or k not in data]. *)
Definition unusable (err : option exn) (data : pyobj) (k : string) : res bool :=
  if raised err || negb (truthy data) then Ok true
  else (b <- py_contains k data ;; Ok (negb b))%expr.

Definition poll_openmeteo_weather : M unit :=
  let api := "openmeteo_weather" in
  '(data, latency, err) <- timed_get api weather_url ;;
  api_latency_observe api latency ;;
  t <- py_time_time ;;
  api_last_scrape_set api t ;;
  stop <- lift (unusable err data "current") ;;
  if stop then log_warn_if (api ++ ": ") err
  else
    c <- lift (py_getitem data "current") ;;
    try_except
      (set_if_present "weather_temperature_c" "temperature_2m" id c ;;
       set_if_present "weather_wind_speed_ms" "wind_speed_10m"
         (fun x => PrimFloat.div x 3.6%float) c ;;
       set_if_present "weather_humidity_percent" "relative_humidity_2m" id c)
      (fun e => log_warn (api ++ ": parse current failed: ") e).

(** The fallback of [poll_openmeteo_air]: the hourly series. *)
Definition poll_openmeteo_air_hourly : M unit :=
  let api := "openmeteo_air" in
  '(data, latency, err) <- timed_get api air_url_hourly ;;
  api_latency_observe api latency ;;
  t <- py_time_time ;;
  api_last_scrape_set api t ;;
  stop <- lift (unusable err data "hourly") ;;
  if stop then log_warn_if (api ++ ": ") err
  else
    h <- lift (py_getitem data "hourly") ;;
    try_except
      (v_pm10 <- _last_past_value h "pm10" ;;
       v_pm25 <- _last_past_value h "pm2_5" ;;
       v_aqi <- _last_past_value h "us_aqi" ;;
       set_if_some "air_pm10_ugm3" v_pm10 ;;
       set_if_some "air_pm25_ugm3" v_pm25 ;;
       set_if_some "air_us_aqi" v_aqi)
      (fun e => log_warn (api ++ ": parse hourly failed: ") e).

(** The first attempt of [poll_openmeteo_air], up to the comment
    [fallback: hourly]. It yields [true] when it ended in the [return]
    of its [try] block and [false] when control goes on to the fallback. *)
Definition poll_openmeteo_air_current : M bool :=
  let api := "openmeteo_air" in
  '(data, latency, err) <- timed_get api air_url_current ;;
  api_latency_observe api latency ;;
  t <- py_time_time ;;
  api_last_scrape_set api t ;;
  stop <- lift (unusable err data "current") ;;
  if stop then ret false
  else
    c <- lift (py_getitem data "current") ;;
    try_except
      (set_if_not_none "air_pm10_ugm3" "pm10" c ;;
       set_if_not_none "air_pm25_ugm3" "pm2_5" c ;;
       set_if_not_none "air_us_aqi" "us_aqi" c ;;
       ret true)
      (fun e =>
       log_warn (api ++ ": parse current failed: ") e ;;
       ret false).

Definition poll_openmeteo_air : M unit :=
  returned <- poll_openmeteo_air_current ;;
  if returned then ret tt else poll_openmeteo_air_hourly.

Definition poll_fx : M unit :=
  let api := "frankfurter" in
  '(data, latency, err) <- timed_get api fx_url ;;
  api_latency_observe api latency ;;
  t <- py_time_time ;;
  api_last_scrape_set api t ;;
  stop <- lift (unusable err data "rates") ;;
  if stop then log_warn_if (api ++ ": ") err
  else
    try_except
      (rates <- lift (py_getitem data "rates") ;;
       set_if_not_none "fx_usd_kzt" "KZT" rates ;;
       set_if_not_none "fx_eur_kzt" "EUR" rates)
      (fun e => log_warn (api ++ ": parse failed: ") e).

(** [if p and "price" in p and p["price"] is not None: g.set(float(p["price"]))] *)
Definition set_price (g : string) (p : pyobj) : M unit :=
  if truthy p then set_if_not_none g "price" p else ret tt.

Definition poll_crypto : M unit :=
  let api := "binance" in
  '(btc, l1, e1) <- timed_get api btc_url ;;
  api_latency_observe api l1 ;;
  t1 <- py_time_time ;;
  api_last_scrape_set api t1 ;;
  '(eth, l2, e2) <- timed_get api eth_url ;;
  api_latency_observe api l2 ;;
  t2 <- py_time_time ;;
  api_last_scrape_set api t2 ;;
  log_warn_if (api ++ " BTC: ") e1 ;;
  log_warn_if (api ++ " ETH: ") e2 ;;
  try_except
    (set_price "crypto_btc_usd" btc ;;
     set_price "crypto_eth_usd" eth)
    (fun e => log_warn (api ++ ": parse failed: ") e).

(** The body of [for item in data["items"]]. In
    [so_tag_count.labels(tag=name).set(float(cnt))] the method is looked
    up before its argument is computed: [labels] runs, then [float],
    then [set]. *)
Definition so_item (item : pyobj) : M unit :=
  name <- lift (py_get item "name") ;;
  cnt <- lift (py_get item "count") ;;
  if truthy name && negb (is_none cnt) then
    so_tag_count_labels (label_value name) ;;
    x <- lift (py_float cnt) ;;
    so_tag_count_set (label_value name) x
  else ret tt.

Fixpoint for_each (body : pyobj -> M unit) (items : list pyobj) : M unit :=
  match items with
  | [] => ret tt
  | item :: rest => body item;; for_each body rest
  end.

Definition poll_stackoverflow : M unit :=
  now <- py_time_time ;;
  last <- read_LAST_SO_POLL ;;
  if PrimFloat.ltb (PrimFloat.sub now last) SO_MIN_PERIOD then ret tt
  else
    now' <- py_time_time ;;
    write_LAST_SO_POLL now' ;;
    let api := "stackoverflow" in
    '(data, latency, err) <- timed_get api so_url ;;
    api_latency_observe api latency ;;
    t <- py_time_time ;;
    api_last_scrape_set api t ;;
    stop <- lift (unusable err data "items") ;;
    if stop then log_warn_if (api ++ ": ") err
    else
      try_except
        (v <- lift (py_getitem data "items") ;;
         items <- lift (py_iter v) ;;
         for_each so_item items)
        (fun e => log_warn (api ++ ": parse failed: ") e).

(** One turn of the [while True] of [loop]. *)
Definition cycle : M unit :=
  try_except
    (poll_openmeteo_weather ;;
     poll_openmeteo_air ;;
     poll_fx ;;
     poll_crypto ;;
     poll_stackoverflow)
    (fun e => log_warn "main loop error: " e) ;;
  time_sleep SCRAPE_INTERVAL.

(** The first [n] turns of [loop]. *)
Fixpoint loop (n : nat) : M unit :=
  match n with
  | O => ret tt
  | S n' => cycle ;; loop n'
  end.

End Exporter.

(** * Reading the runs *)

(** ** Reading a run *)

(** The value a labelled counter shows: a child that was never
    incremented counts zero. *)
Definition counter_value (c : gmap string nat) (label : string) : nat :=
  default 0%nat (c !! label).

(** What one HTTP exchange amounts to for [timed_get]: the decoded
    payload, or the first exception among transport, status and
    decoding. *)
Definition fetch_result (r : net_result) : res pyobj :=
  match r with
  | NetError => Raise RequestException
  | Response status_code body =>
      (_ <- raise_for_status status_code ;; response_json body)%expr
  end.

(** ** Reading a collector *)

(** Gauge writes in the order they happen. *)
Fixpoint apply_updates (us : list (string * float)) (g : gmap string float)
  : gmap string float :=
  match us with
  | [] => g
  | (k, x) :: us' => apply_updates us' (<[k := x]> g)
  end.

(** The last value [us] writes to [k]. *)
Fixpoint last_write (us : list (string * float)) (k : string) : option float :=
  match us with
  | [] => None
  | (k', x) :: us' =>
      match last_write us' k with
      | Some y => Some y
      | None => if decide (k' = k) then Some x else None
      end
  end.

(** The fields of one response, in the order of the source: each is
    a gauge with what reading the field gave, [Ok None] for a field
    that is passed over, [Ok (Some x)] for a value to publish and
    [Raise e] for a parse failure. *)
Definition fields : Type := list (string * res (option float)).

(** What a [try] block over [fs] publishes: the values of the fields
    before the first failure. *)
Fixpoint published (fs : fields) : list (string * float) :=
  match fs with
  | [] => []
  | (g, Ok (Some x)) :: fs' => (g, x) :: published fs'
  | (_, Ok None) :: fs' => published fs'
  | (_, Raise _) :: _ => []
  end.

(** The exception that ends the block, if any. *)
Fixpoint first_failure (fs : fields) : option exn :=
  match fs with
  | [] => None
  | (_, Ok _) :: fs' => first_failure fs'
  | (_, Raise e) :: _ => Some e
  end.

(** The state after a [try] block over [fs] whose handler logs [msg]. *)
Definition finish (msg : string) (fs : fields) (st : state) : state :=
  let st' := set_gauges (apply_updates (published fs) (gauges st)) st in
  match first_failure fs with
  | None => st'
  | Some e => set_log (Warn msg e :: log st') st'
  end.

(** The state after [if err: log_warn(...)]. *)
Definition warned (msg : string) (err : option exn) (st : state) : state :=
  match err with
  | Some e => set_log (Warn msg e :: log st) st
  | None => st
  end.

(** Statements one after the other. *)
Fixpoint run_all (cs : list (M unit)) : M unit :=
  match cs with
  | [] => ret tt
  | c :: cs' => c ;; run_all cs'
  end.

(** ** A reference environment

    The theorems quantify over every environment. The examples run the
    program in the environments below, whose library routines agree with
    CPython on the inputs the examples use: timestamps of the shapes
    [YYYY-MM-DDTHH:MM], [YYYY-MM-DDTHH:MM:SS] and the same followed by
    [+HH:MM] or [-HH:MM], and numerals made of at most fifteen digits
    with an optional decimal point. *)
Module Reference.

Definition digit (c : ascii) : option Z :=
  let n := Z.of_N (N_of_ascii c) in
  if (48 <=? n) && (n <=? 57) then Some (n - 48) else None.

Fixpoint number (cs : list ascii) (acc : Z) : option Z :=
  match cs with
  | [] => Some acc
  | c :: cs' =>
      match digit c with
      | Some d => number cs' (10 * acc + d)
      | None => None
      end
  end.

Definition is_leap (y : Z) : bool :=
  (y mod 4 =? 0) && (negb (y mod 100 =? 0) || (y mod 400 =? 0)).

Definition days_in_month (y m : Z) : Z :=
  if m =? 2 then (if is_leap y then 29 else 28)
  else if (m =? 4) || (m =? 6) || (m =? 9) || (m =? 11) then 30
  else 31.

Definition days_before_year (y : Z) : Z :=
  (y - 1) * 365 + (y - 1) / 4 - (y - 1) / 100 + (y - 1) / 400.

(** Days of the year before month [m]. *)
Fixpoint days_before_month (y : Z) (m : nat) : Z :=
  match m with
  | O => 0
  | S O => 0
  | S m' => days_before_month y m' + days_in_month y (Z.of_nat m')
  end.

(** Microseconds from 0001-01-01T00:00:00 to the given civil time. *)
Definition civil (y mo d h mi s : Z) : option Z :=
  if (1 <=? y) && (1 <=? mo) && (mo <=? 12) && (1 <=? d)
     && (d <=? days_in_month y mo) && (h <? 24) && (mi <? 60) && (s <? 60)
  then
    let ordinal :=
      days_before_year y + days_before_month y (Z.to_nat mo) + d in
    Some (((ordinal - 1) * 86400 + h * 3600 + mi * 60 + s) * 1000000)
  else None.

Definition offset (cs : list ascii) : option (option Z) :=
  match cs with
  | [] => Some None
  | [sg; h1; h2; ":"%char; m1; m2] =>
      match number [h1; h2] 0, number [m1; m2] 0 with
      | Some h, Some m =>
          if (h <? 24) && (m <? 60) then
            let off := (h * 3600 + m * 60) * 1000000 in
            if Ascii.eqb sg "+"%char then Some (Some off)
            else if Ascii.eqb sg "-"%char then Some (Some (- off))
            else None
          else None
      | _, _ => None
      end
  | _ => None
  end.

Definition seconds_and_offset (cs : list ascii) : option (Z * option Z) :=
  match cs with
  | ":"%char :: s1 :: s2 :: rest =>
      match number [s1; s2] 0, offset rest with
      | Some s, Some off => Some (s, off)
      | _, _ => None
      end
  | _ =>
      match offset cs with
      | Some off => Some (0, off)
      | None => None
      end
  end.

Definition iso (s : string) : option datetime :=
  match list_ascii_of_string s with
  | y1 :: y2 :: y3 :: y4 :: "-"%char :: mo1 :: mo2 :: "-"%char :: d1 :: d2
    :: "T"%char :: h1 :: h2 :: ":"%char :: mi1 :: mi2 :: rest =>
      match number [y1; y2; y3; y4] 0, number [mo1; mo2] 0,
            number [d1; d2] 0, number [h1; h2] 0, number [mi1; mi2] 0,
            seconds_and_offset rest with
      | Some y, Some mo, Some d, Some h, Some mi, Some (sec, off) =>
          match civil y mo d h mi sec with
          | Some w => Some {| wall := w; tzinfo := off |}
          | None => None
          end
      | _, _, _, _, _, _ => None
      end
  | _ => None
  end.

(** Digits before and after the first decimal point. *)
Fixpoint split_point (cs : list ascii) : list ascii * option (list ascii) :=
  match cs with
  | [] => ([], None)
  | c :: cs' =>
      if Ascii.eqb c "."%char then ([], Some cs')
      else let '(a, b) := split_point cs' in (c :: a, b)
  end.

Definition exact (z : Z) : float := SF2Prim (binary_normalize 53 1024 z 0 false).

(** A numeral of at most fifteen digits is a quotient of two integers
    that binary64 holds exactly, so one correctly rounded division gives
    the nearest float. *)
Definition numeral (s : string) : option float :=
  let '(a, b) := split_point (list_ascii_of_string s) in
  let frac := default [] b in
  match a, b with
  | [], _ => None
  | _, Some [] => None
  | _, _ =>
      if (length (a ++ frac) <=? 15)%nat then
        match number (a ++ frac) 0 with
        | Some m => Some (PrimFloat.div (exact m) (exact (10 ^ Z.of_nat (length frac))))
        | None => None
        end
      else None
  end.

Definition str_of (v : pyobj) : string :=
  match v with
  | PNone => "None"
  | PBool true => "True"
  | PBool false => "False"
  | PStr s => s
  | _ => "<object>"
  end.

(** The network answers the requests in order with [answers]; the
    [k]-th clock read is [clock k]; the UTC time is [now] throughout. *)
Definition world (answers : list net_result) (clock : nat -> float) (now : Z)
  : env :=
  {| fromisoformat := iso;
     str_to_float := numeral;
     py_str := str_of;
     http := fun n _ => nth n answers NetError;
     time_time := clock;
     utc_now := fun _ => now |}.

(** The network answers a request for [url] with [table url], each
    time. *)
Definition steady_world (table : string -> net_result) (clock : nat -> float)
    (now : Z) : env :=
  {| fromisoformat := iso;
     str_to_float := numeral;
     py_str := str_of;
     http := fun _ url => table url;
     time_time := clock;
     utc_now := fun _ => now |}.

Definition json (v : pyobj) : net_result := Response 200 (Some v).

End Reference.

(** ** The worlds of the examples *)

Module SelectorWorlds.

Import Reference.

(** ** The selector on the series of the specification *)

(** 2024-01-01T12:00:00 UTC, in microseconds since 0001-01-01. *)
Definition noon : Z := 63839707200000000.

Definition W : env := world [] (fun _ => 0%float) noon.

Definition hours : list pyobj :=
  [PStr "2024-01-01T09:00"; PStr "2024-01-01T11:00"; PStr "2024-01-01T13:00"].

Definition series (values : list pyobj) : list (string * pyobj) :=
  [("time", PList hours); ("pm10", PList values)].

End SelectorWorlds.

Module CollectorWorlds.

Import Reference.

(** ** The collectors at work *)

(** Five minutes pass between the 23 clock reads of a first turn in
    which every request fails and the reads of the second turn. *)
Definition clock (k : nat) : float :=
  if (k <? 23)%nat then 1700000000%float else 1700000300%float.

Definition noon : Z := 63839707200000000.

(** No network at all. *)
Definition offline : env := world [] clock noon.

Definition weather_payload : pyobj :=
  PDict [("current",
          PDict [("temperature_2m", PFloat 21.5%float);
                 ("wind_speed_10m", PInt 18);
                 ("relative_humidity_2m", PInt 40)])].

(** The weather source answers, the two air-quality requests fail, and
    the currency source answers with the number 5. *)
Definition faulty : env :=
  world [json weather_payload; NetError; NetError; json (PInt 5)] clock noon.

(** *** Currency: one field null, one field that does not convert *)

Definition fx_payload (kzt : pyobj) : pyobj :=
  PDict [("amount", PFloat 1%float); ("base", PStr "USD");
         ("rates", PDict [("KZT", kzt); ("EUR", PFloat 0.92%float)])].

Definition fx_world (kzt : pyobj) : env :=
  world [json (fx_payload kzt)] clock noon.

(** *** Air quality: the current request fails *)

Definition hourly_payload : pyobj :=
  PDict [("hourly",
          PDict [("time", PList [PStr "2024-01-01T09:00";
                                 PStr "2024-01-01T11:00";
                                 PStr "2024-01-01T13:00"]);
                 ("pm10", PList [PInt 1; PInt 2; PInt 3]);
                 ("pm2_5", PList [PFloat 0.5%float; PNone; PInt 9]);
                 ("us_aqi", PList [PInt 40; PInt 41; PInt 42])])].

Definition air_world : env := world [NetError; json hourly_payload] clock noon.

(** *** Crypto: BTC fails, ETH answers *)

Definition eth_payload : pyobj :=
  PDict [("symbol", PStr "ETHUSDT"); ("price", PStr "3500.25")].

Definition crypto_world : env := world [NetError; json eth_payload] clock noon.

(** A store in which the BTC price was published before. *)
Definition with_btc : state :=
  set_gauges (<["crypto_btc_usd" := 60000%float]> ∅) initial_state.

(** A store in which both rates were published before. *)
Definition with_rates : state :=
  set_gauges
    (<["fx_eur_kzt" := 0.9%float]> (<["fx_usd_kzt" := 470%float]> ∅))
    initial_state.

(** *** Tag statistics: two turns five minutes apart *)

(** The state in which the second turn reaches [poll_stackoverflow]. *)
Definition second_turn : state :=
  snd (run_all
         [poll_openmeteo_weather offline; poll_openmeteo_air offline;
          poll_fx offline; poll_crypto offline]
         (snd (cycle offline initial_state))).

Definition count_requests (url : string) (st : state) : nat :=
  length (filter (fun u => String.eqb u url = true) (requests st)).

(** *** The same answers twice *)

Definition fx_table (url : string) : net_result :=
  if String.eqb url fx_url
  then json (fx_payload (PFloat 480.5%float))
  else NetError.

Definition same_answers : env := steady_world fx_table clock noon.

(** *** The same answers twice, at two times of the day *)





(** *** Weather: a null wind speed between two numbers *)

Definition wind_null_payload : pyobj :=
  PDict [("current",
          PDict [("temperature_2m", PFloat 21.5%float);
                 ("wind_speed_10m", PNone);
                 ("relative_humidity_2m", PInt 40)])].

Definition wind_null_world : env := world [json wind_null_payload] clock noon.

End CollectorWorlds.

(** * Properties *)

Section Properties.

Context (E : env).

(** ** The fetcher *)

(** The state [timed_get] leaves: one request, two clock reads, one
    counter moved. *)
Definition after_fetch (api url : string) (st : state) : state :=
  let st1 := set_requests (url :: requests st) (set_ticks (S (ticks st)) st) in
  let st2 :=
    match fetch_result (http E (length (requests st)) url) with
    | Ok _ => set_api_success_total
                (<[api := S (counter_value (api_success_total st) api)]>
                   (api_success_total st)) st1
    | Raise _ => set_api_fail_total
                (<[api := S (counter_value (api_fail_total st) api)]>
                   (api_fail_total st)) st1
    end in
  set_ticks (S (S (ticks st))) st2.

(** The triple [timed_get] returns. *)
Definition fetch_triple (url : string) (st : state)
  : pyobj * float * option exn :=
  let latency :=
    PrimFloat.sub (time_time E (S (ticks st))) (time_time E (ticks st)) in
  match fetch_result (http E (length (requests st)) url) with
  | Ok v => (v, latency, None)
  | Raise e => (PNone, latency, Some e)
  end.

(** ** The temporal selector *)

(** The instant [_last_past_value] compares with when it runs in [st]. *)
Definition now_of (st : state) : datetime :=
  {| wall := utc_now E (ticks st); tzinfo := Some 0 |}.

(** The timestamp parses to an instant that is not after [now]. *)
Definition past (now : datetime) (ts : pyobj) : bool :=
  match _parse_iso_ts E ts with
  | Some dt => dt_le dt now
  | None => false
  end.

(** [float(v)] under its [try]: absent when the conversion raises. *)
Definition float_or_absent (v : pyobj) : option float :=
  match py_float E v with
  | Ok x => Some x
  | Raise _ => None
  end.

(** The greatest index below [n] whose timestamp is past. *)
Fixpoint greatest_past (now : datetime) (times : list pyobj) (n : nat)
  : option nat :=
  match n with
  | O => None
  | S i =>
      if past now (default PNone (times !! i)) then Some i
      else greatest_past now times i
  end.

(** The selection as C1 words it: the value at the greatest index whose
    timestamp is past, whatever that value is. *)
Definition value_at_greatest_past (now : datetime) (times values : list pyobj)
  : option pyobj :=
  i ← greatest_past now times (length times); values !! i.

(** The selection as C2 words it: an index is passed over when its
    timestamp does not parse or is not past, when its value is null, and
    also when its value does not convert. *)
Fixpoint scan_skipping_every_failure (now : datetime)
    (times values : list pyobj) (n : nat) : option float :=
  match n with
  | O => None
  | S i =>
      if past now (default PNone (times !! i)) then
        match float_or_absent (default PNone (values !! i)) with
        | Some x => Some x
        | None => scan_skipping_every_failure now times values i
        end
      else scan_skipping_every_failure now times values i
  end.

(** What [timed_get] makes of the request a collector sends from [st]. *)
Definition answer (url : string) (st : state) : res pyobj :=
  fetch_result (http E (length (requests st)) url).

Definition payload (url : string) (st : state) : pyobj :=
  match answer url st with
  | Ok v => v
  | Raise _ => PNone
  end.

Definition error (url : string) (st : state) : option exn :=
  match answer url st with
  | Ok _ => None
  | Raise e => Some e
  end.

(** The state after the four statements every collector starts with:
    [timed_get], [observe], and [set(time.time())]. *)
Definition recorded (api url : string) (st : state) : state :=
  let s1 := after_fetch api url st in
  let latency :=
    PrimFloat.sub (time_time E (S (ticks st))) (time_time E (ticks st)) in
  set_api_last_scrape
    (<[api := time_time E (S (S (ticks st)))]>
       (api_last_scrape_timestamp_seconds s1))
    (set_ticks (S (S (S (ticks st))))
       (set_api_latency_seconds
          (<[api := latency :: default [] (api_latency_seconds s1 !! api)]>
             (api_latency_seconds s1)) s1)).

(** Reading [k] with the test [k in c and c[k] is not None]. *)
Definition field_not_none (c : pyobj) (k : string) : res (option float) :=
  (b <- py_contains k c ;;
   if b then
     v <- py_getitem c k ;;
     if is_none v then Ok None
     else (x <- py_float E v ;; Ok (Some x))
   else Ok None)%expr.

(** Reading [k] with the test [k in c] alone. *)
Definition field_present (conv : float -> float) (c : pyobj) (k : string)
  : res (option float) :=
  (b <- py_contains k c ;;
   if b then
     v <- py_getitem c k ;;
     x <- py_float E v ;;
     Ok (Some (conv x))
   else Ok None)%expr.

(** Reading the price of a ticker with the test [p and "price" in p
    and p["price"] is not None]. *)
Definition price_field (p : pyobj) : res (option float) :=
  if truthy p then field_not_none p "price" else Ok None.

(** A statement that reads one field and sets one gauge. *)
Definition sets (s : M unit) (g : string) (r : res (option float)) : Prop :=
  forall st,
    s st =
    match r with
    | Ok None => (Ok tt, st)
    | Ok (Some x) => (Ok tt, set_gauges (<[g := x]> (gauges st)) st)
    | Raise e => (Raise e, st)
    end.

(** The state after the gauge writes of a block over [fs]. *)
Definition written (fs : fields) (st : state) : state :=
  set_gauges (apply_updates (published fs) (gauges st)) st.

(** [k] runs the field statements of [fs] and then [tail]. *)
Definition block {A} (k : M A) (fs : fields) (tail : M A) : Prop :=
  forall st,
    k st =
    match first_failure fs with
    | None => tail (written fs st)
    | Some e => (Raise e, written fs st)
    end.

(** *** The selector on a [dict] *)

(** The two lists [_last_past_value] scans, when its validation passes. *)
Definition series_of (d : list (string * pyobj)) (key : string)
  : option (list pyobj * list pyobj) :=
  match dict_lookup "time" d, dict_lookup key d with
  | Some (PList ts), Some (PList vs) =>
      if (length ts =? length vs)%nat && negb (bool_decide (ts = []))
      then Some (ts, vs) else None
  | _, _ => None
  end.

(** What [_last_past_value] returns on a [dict] in [st], and the state it
    leaves: the clock is read only when the validation passes. *)
Definition selected (d : list (string * pyobj)) (key : string) (st : state)
  : option float :=
  match series_of d key with
  | Some (ts, vs) =>
      match scan_back E (now_of st) ts vs (length ts) with
      | Ok o => o
      | Raise _ => None
      end
  | None => None
  end.

Definition ticked (d : list (string * pyobj)) (key : string) (st : state)
  : state :=
  match series_of d key with
  | Some _ => set_ticks (S (ticks st)) st
  | None => st
  end.

(** *** Weather *)

Definition weather_fields (c : pyobj) : fields :=
  [("weather_temperature_c", field_present id c "temperature_2m");
   ("weather_wind_speed_ms",
    field_present (fun x => PrimFloat.div x 3.6%float) c "wind_speed_10m");
   ("weather_humidity_percent", field_present id c "relative_humidity_2m")].

(** *** Currency *)

Definition fx_fields (rates : pyobj) : fields :=
  [("fx_usd_kzt", field_not_none rates "KZT");
   ("fx_eur_kzt", field_not_none rates "EUR")].

(** *** Crypto *)

Definition crypto_fields (btc eth : pyobj) : fields :=
  [("crypto_btc_usd", price_field btc); ("crypto_eth_usd", price_field eth)].

(** *** Air quality *)

Definition air_fields (c : pyobj) : fields :=
  [("air_pm10_ugm3", field_not_none c "pm10");
   ("air_pm25_ugm3", field_not_none c "pm2_5");
   ("air_us_aqi", field_not_none c "us_aqi")].

(** The three values the fallback publishes from the series [d] when it
    starts reading it in [st]. *)
Definition hourly_fields (d : list (string * pyobj)) (st : state) : fields :=
  let s1 := ticked d "pm10" st in
  let s2 := ticked d "pm2_5" s1 in
  [("air_pm10_ugm3", Ok (selected d "pm10" st));
   ("air_pm25_ugm3", Ok (selected d "pm2_5" s1));
   ("air_us_aqi", Ok (selected d "us_aqi" s2))].

Definition hourly_read (d : list (string * pyobj)) (st : state) : state :=
  ticked d "us_aqi" (ticked d "pm2_5" (ticked d "pm10" st)).

(** *** Tag statistics *)

(** Reading one item: [Ok None] for an item that is passed over,
    otherwise the label [labels] is called with and what [float] makes
    of the count. *)
Definition item_field (item : pyobj) : res (option (string * res float)) :=
  (name <- py_get item "name" ;;
   cnt <- py_get item "count" ;;
   if truthy name && negb (is_none cnt)
   then Ok (Some (label_value E name, py_float E cnt))
   else Ok None)%expr.

(** The tag counts the loop over [items] sets: those of the items
    before the first failure. *)
Fixpoint tags_published (items : list pyobj) : list (string * float) :=
  match items with
  | [] => []
  | item :: rest =>
      match item_field item with
      | Ok (Some (t, Ok x)) => (t, x) :: tags_published rest
      | Ok None => tags_published rest
      | _ => []
      end
  end.

(** The exception that ends the loop, if any. *)
Fixpoint tags_failure (items : list pyobj) : option exn :=
  match items with
  | [] => None
  | item :: rest =>
      match item_field item with
      | Ok (Some (_, Ok _)) => tags_failure rest
      | Ok None => tags_failure rest
      | Ok (Some (_, Raise e)) => Some e
      | Raise e => Some e
      end
  end.

(** The tag of the item whose count did not convert, if the loop ended
    on one: its child was made by [labels] and not set. *)
Fixpoint tags_touched (items : list pyobj) : option string :=
  match items with
  | [] => None
  | item :: rest =>
      match item_field item with
      | Ok (Some (_, Ok _)) => tags_touched rest
      | Ok None => tags_touched rest
      | Ok (Some (t, Raise _)) => Some t
      | Raise _ => None
      end
  end.

(** The children of [so_tag_count] after the loop over [items]. *)
Definition tags_after (items : list pyobj) (m : gmap string float)
  : gmap string float :=
  let m' := apply_updates (tags_published items) m in
  match tags_touched items with
  | Some t => touch t m'
  | None => m'
  end.

(** The items of [for item in data["items"]]. *)
Definition so_items (data : pyobj) : res (list pyobj) :=
  (v <- py_getitem data "items" ;; py_iter v)%expr.

(** The state after the [try] block of [poll_stackoverflow]. *)
Definition so_parsed (data : pyobj) (st : state) : state :=
  match so_items data with
  | Raise e => warned "stackoverflow: parse failed: " (Some e) st
  | Ok items =>
      warned "stackoverflow: parse failed: " (tags_failure items)
        (set_so_tag_count (tags_after items (so_tag_count st)) st)
  end.

(** The gate of [poll_stackoverflow] in [st]: the clock it reads is
    less than [SO_MIN_PERIOD] after [LAST_SO_POLL]. *)
Definition gate_closed (st : state) : bool :=
  PrimFloat.ltb (PrimFloat.sub (time_time E (ticks st)) (LAST_SO_POLL st))
    SO_MIN_PERIOD.

(** The state in which the request leaves once the gate is passed. *)
Definition gate_passed (st : state) : state :=
  set_LAST_SO_POLL (time_time E (S (ticks st)))
    (set_ticks (S (S (ticks st))) st).

(** A component of the state that is blind to what the four collectors
    of gauges write. *)
Record untouched {A} (p : state -> A) : Prop := {
  blind_gauges : forall x s, p (set_gauges x s) = p s;
  blind_success : forall x s, p (set_api_success_total x s) = p s;
  blind_fail : forall x s, p (set_api_fail_total x s) = p s;
  blind_latency : forall x s, p (set_api_latency_seconds x s) = p s;
  blind_last_scrape : forall x s, p (set_api_last_scrape x s) = p s;
  blind_log : forall x s, p (set_log x s) = p s;
  blind_requests : forall x s, p (set_requests x s) = p s;
  blind_ticks : forall x s, p (set_ticks x s) = p s
}.

(** ** The collectors of a turn *)

(** The collectors in the order of [loop]. *)
Definition collectors : list (M unit) :=
  [poll_openmeteo_weather E; poll_openmeteo_air E; poll_fx E;
   poll_crypto E; poll_stackoverflow E].

(** The state after the [except] clause and the sleep of a turn whose
    body left [r] and [s]. *)
Definition turn_end (r : res unit) (s : state) : state :=
  let s' :=
    match r with
    | Ok _ => s
    | Raise e => set_log (Warn "main loop error: " e :: log s) s
    end in
  set_sleeps (SCRAPE_INTERVAL :: sleeps s') s'.

(** ** What a collector writes to the gauges *)

(** The gauge writes of a collector that parses the entry [k] of its
    payload with [flds]: none unless the request succeeded with a
    payload that has the entry. *)
Definition section_writes (flds : pyobj -> fields) (k : string)
    (r : res pyobj) : list (string * float) :=
  match r with
  | Ok data =>
      match unusable None data k with
      | Ok false =>
          match py_getitem data k with
          | Ok c => published (flds c)
          | Raise _ => []
          end
      | _ => []
      end
  | Raise _ => []
  end.

(** How the first attempt of the air-quality collector ends: [Ok true]
    when it returns, [Ok false] when it falls through to the fallback. *)
Definition air_outcome (r : res pyobj) : res bool :=
  match r with
  | Ok data =>
      match unusable None data "current" with
      | Raise e => Raise e
      | Ok true => Ok false
      | Ok false =>
          match py_getitem data "current" with
          | Raise e => Raise e
          | Ok c =>
              Ok (match first_failure (air_fields c) with
                  | None => true
                  | Some _ => false
                  end)
          end
      end
  | Raise _ => Ok false
  end.

(** The gauge writes of the fallback when it reads its series in [s]. *)
Definition hourly_writes (r : res pyobj) (s : state) : list (string * float) :=
  match r with
  | Ok data =>
      match unusable None data "hourly" with
      | Ok false =>
          match py_getitem data "hourly" with
          | Ok (PDict h) => published (hourly_fields h s)
          | _ => []
          end
      | _ => []
      end
  | Raise _ => []
  end.

Definition air_writes (r1 r2 : res pyobj) (s : state) : list (string * float) :=
  (section_writes air_fields "current" r1 ++
   match air_outcome r1 with
   | Ok false => hourly_writes r2 s
   | _ => []
   end)%list.

(** The children of [so_tag_count] after a request of the tag
    statistics that got the answer [r]. *)
Definition so_after (r : res pyobj) (m : gmap string float)
  : gmap string float :=
  match r with
  | Ok data =>
      match unusable None data "items" with
      | Ok false =>
          match so_items data with
          | Ok items => tags_after items m
          | Raise _ => m
          end
      | _ => m
      end
  | Raise _ => m
  end.

(** ** Steady answers *)






(** ** The field policy as C4 words it *)


(** ** Bookkeeping of the requests *)

(** The sum of the children of a labelled counter. *)
Definition total (m : gmap string nat) : nat :=
  map_fold (fun _ v acc => (v + acc)%nat) 0%nat m.

(** The requests the two counters have counted, all sources together. *)
Definition tally (st : state) : nat :=
  (total (api_success_total st) + total (api_fail_total st))%nat.

(** Requests counted minus requests sent. *)
Definition surplus (st : state) : Z :=
  Z.of_nat (tally st) - Z.of_nat (length (requests st)).

(** Every decoded payload is [None] or an object, as the annotation of
    [timed_get] has it. *)
Definition object_payloads : Prop :=
  forall n url v,
    fetch_result (http E n url) = Ok v -> v = PNone \/ exists d, v = PDict d.

(** The gauges each collector names. *)
Definition weather_names : list string :=
  ["weather_temperature_c"; "weather_wind_speed_ms"; "weather_humidity_percent"].

Definition air_names : list string :=
  ["air_pm10_ugm3"; "air_pm25_ugm3"; "air_us_aqi"].

Definition fx_names : list string := ["fx_usd_kzt"; "fx_eur_kzt"].

Definition crypto_names : list string := ["crypto_btc_usd"; "crypto_eth_usd"].

(** Each collector with the gauges it names; the collector of the tag
    statistics names none, it writes the children of [so_tag_count]. *)
Definition own_gauges : list (M unit * list string) :=
  [(poll_openmeteo_weather E, weather_names);
   (poll_openmeteo_air E, air_names);
   (poll_fx E, fx_names);
   (poll_crypto E, crypto_names);
   (poll_stackoverflow E, [])].

Definition gauge_names : list string :=
  (weather_names ++ air_names ++ fx_names ++ crypto_names)%list.

(** From [s] to [s'], at most [hi] requests were sent and none was
    forgotten. *)
Definition sends (hi : nat) (s s' : state) : Prop :=
  exists sent,
    requests s' = (sent ++ requests s)%list /\ (length sent <= hi)%nat.

(** From [s] to [s'], no gauge and no tag count lost its value, and a
    gauge outside [gauge_names] was not written. *)
Definition kept (s s' : state) : Prop :=
  forall g,
    (is_Some (gauges s !! g) -> is_Some (gauges s' !! g)) /\
    (is_Some (so_tag_count s !! g) -> is_Some (so_tag_count s' !! g)) /\
    (~ In g gauge_names -> gauges s' !! g = gauges s !! g).

(** ** Statements, step by step *)

Lemma bind_run {A B} (m : M A) (f : A -> M B) (st : state) :
  bind m f st =
  match m st with
  | (Ok a, st') => f a st'
  | (Raise e, st') => (Raise e, st')
  end.
Proof. reflexivity. Qed.

Lemma try_lift_bind {A B} (r : res A) (f : A -> M B) h st :
  try_except (bind (lift r) f) h st =
  match r with
  | Ok a => try_except (f a) h st
  | Raise e => h e st
  end.
Proof. unfold try_except, bind, lift. now destruct r. Qed.

(** ** The fetcher never raises *)

Lemma timed_get_run api url st :
  timed_get E api url st = (Ok (fetch_triple url st), after_fetch api url st).
Proof.
  unfold timed_get, fetch_triple, after_fetch, fetch_result.
  unfold bind at 1. cbn [py_time_time].
  unfold try_except, bind, session_get, lift. cbn.
  destruct (http E (length (requests st)) url) as [|code body]; cbn.
  - reflexivity.
  - unfold raise_for_status.
    destruct ((400 <=? code) && (code <? 600)); cbn; [reflexivity|].
    destruct body; reflexivity.
Qed.

(** C5. [timed_get] always returns a triple and never raises. When the
    transport, the status check or the JSON decoding fails, the payload
    is [None], the error is the exception, the failure counter of the
    source goes up by one and its success counter stays; on success the
    payload is the decoded body, the error is [None], the success
    counter goes up by one and the failure counter stays. The counters
    of the other sources are untouched either way. *)
Theorem timed_get_returns_data api url st :
  exists data latency err st',
    timed_get E api url st = (Ok (data, latency, err), st') /\
    match fetch_result (http E (length (requests st)) url) with
    | Raise e =>
        data = PNone /\ err = Some e /\
        counter_value (api_fail_total st') api
          = S (counter_value (api_fail_total st) api) /\
        api_success_total st' = api_success_total st /\
        (forall other, other <> api ->
           api_fail_total st' !! other = api_fail_total st !! other)
    | Ok v =>
        data = v /\ err = None /\
        counter_value (api_success_total st') api
          = S (counter_value (api_success_total st) api) /\
        api_fail_total st' = api_fail_total st /\
        (forall other, other <> api ->
           api_success_total st' !! other = api_success_total st !! other)
    end.
Proof.
  rewrite timed_get_run.
  unfold fetch_triple, after_fetch.
  destruct (fetch_result (http E (length (requests st)) url)) as [v|e].
  - eexists _, _, _, _. split; [reflexivity|].
    cbn. repeat split.
    + unfold counter_value at 1. now rewrite lookup_insert_eq.
    + intros other Hne. now rewrite lookup_insert_ne.
  - eexists _, _, _, _. split; [reflexivity|].
    cbn. repeat split.
    + unfold counter_value at 1. now rewrite lookup_insert_eq.
    + intros other Hne. now rewrite lookup_insert_ne.
Qed.

(** ** The backward scan *)

Lemma is_none_false v : is_none v = false <-> v <> PNone.
Proof. destruct v; cbn; split; congruence. Qed.

Lemma scan_back_not_past now ts vs i t :
  ts !! i = Some t -> past now t = false ->
  scan_back E now ts vs (S i) = scan_back E now ts vs i.
Proof.
  intros Ht Hp. cbn [scan_back]. rewrite Ht.
  unfold past in Hp. destruct (_parse_iso_ts E t); [|reflexivity].
  now rewrite Hp.
Qed.

Lemma scan_back_null now ts vs i t :
  ts !! i = Some t -> vs !! i = Some PNone ->
  scan_back E now ts vs (S i) = scan_back E now ts vs i.
Proof.
  intros Ht Hv. cbn [scan_back]. rewrite Ht.
  destruct (_parse_iso_ts E t); [|reflexivity].
  destruct (dt_le d now); [|reflexivity].
  now rewrite Hv.
Qed.

Lemma scan_back_hit now ts vs i t v :
  ts !! i = Some t -> vs !! i = Some v -> past now t = true -> v <> PNone ->
  scan_back E now ts vs (S i) = Ok (float_or_absent v).
Proof.
  intros Ht Hv Hp Hn. cbn [scan_back]. rewrite Ht.
  unfold past in Hp. destruct (_parse_iso_ts E t); [|discriminate].
  rewrite Hp, Hv. apply is_none_false in Hn. rewrite Hn.
  unfold float_or_absent. now destruct (py_float E v).
Qed.

(** Indices that are not past or hold a null are passed over, one after
    the other. *)
Lemma scan_back_passes now ts vs n m :
  (m <= n)%nat -> (n <= length ts)%nat -> length ts = length vs ->
  (forall j t v, (m <= j < n)%nat -> ts !! j = Some t -> vs !! j = Some v ->
     past now t = false \/ v = PNone) ->
  scan_back E now ts vs n = scan_back E now ts vs m.
Proof.
  intros Hmn Hn Hlen Hskip.
  induction n as [|n IH]; [now replace m with O by lia|].
  destruct (decide (m = S n)) as [->|Hne]; [reflexivity|].
  assert (Hlt : (n < length ts)%nat) by lia.
  destruct (lookup_lt_is_Some_2 ts n Hlt) as [t Ht].
  assert (Hlt' : (n < length vs)%nat) by lia.
  destruct (lookup_lt_is_Some_2 vs n Hlt') as [v Hv].
  rewrite <- IH; [|lia|lia|intros j t' v' Hj; apply Hskip; lia].
  destruct (Hskip n t v) as [Hp| ->]; [lia|assumption|assumption| |].
  - now apply scan_back_not_past with t.
  - now apply scan_back_null with t.
Qed.

Lemma last_past_value_run d key ts vs st :
  dict_lookup "time" d = Some (PList ts) ->
  dict_lookup key d = Some (PList vs) ->
  length ts = length vs -> ts <> [] ->
  _last_past_value E (PDict d) key st =
  (scan_back E (now_of st) ts vs (length ts), set_ticks (S (ticks st)) st).
Proof.
  intros Ht Hv Hlen Hne.
  unfold _last_past_value, bind, lift, py_get. rewrite Ht, Hv. cbn.
  rewrite Hlen, Nat.eqb_refl. destruct ts; [congruence|]. reflexivity.
Qed.

Lemma last_past_value_invalid d key st :
  (forall ts, dict_lookup "time" d <> Some (PList ts)) \/
  (forall vs, dict_lookup key d <> Some (PList vs)) \/
  (exists ts vs,
     dict_lookup "time" d = Some (PList ts) /\
     dict_lookup key d = Some (PList vs) /\
     (length ts <> length vs \/ ts = [])) ->
  _last_past_value E (PDict d) key st = (Ok None, st).
Proof.
  intros H. unfold _last_past_value, bind, lift, py_get.
  destruct H as [H|[H|(ts & vs & Ht & Hv & H)]].
  - destruct (dict_lookup "time" d) as [[]|]; cbn; try reflexivity.
    now destruct (H l).
  - destruct (dict_lookup "time" d) as [[]|], (dict_lookup key d) as [[]|];
      cbn; try reflexivity.
    now destruct (H l0).
  - rewrite Ht, Hv. cbn. destruct H as [H| ->].
    + apply Nat.eqb_neq in H. now rewrite H.
    + now rewrite orb_true_r.
Qed.

Lemma scan_back_greatest now ts vs n i t v :
  (i < n)%nat -> (n <= length ts)%nat -> length ts = length vs ->
  ts !! i = Some t -> vs !! i = Some v -> past now t = true -> v <> PNone ->
  (forall j t' v', (i < j < n)%nat -> ts !! j = Some t' -> vs !! j = Some v' ->
     past now t' = false \/ v' = PNone) ->
  scan_back E now ts vs n = Ok (float_or_absent v).
Proof.
  intros Hin Hn Hlen Ht Hv Hp Hnn Hskip.
  rewrite (scan_back_passes now ts vs n (S i)); [|lia|lia|assumption|].
  - now apply scan_back_hit with t.
  - intros j t' v' Hj. apply Hskip. lia.
Qed.

(** C1, amended. On a [dict], [_last_past_value] returns [None] and
    leaves the state alone when the ["time"] entry or the entry of the
    key is missing or is not a list, when the two lists differ in
    length, and when they are empty. Otherwise it returns the [float] of
    the value at the greatest index whose timestamp parses to an instant
    not after now and whose value is not null ([None] when [float]
    rejects that value), and [None] when no index is such. A timestamp
    without an offset is read as UTC: its instant is its wall time. *)
Theorem last_past_value_selects d key st :
  ((forall ts, dict_lookup "time" d <> Some (PList ts)) \/
   (forall vs, dict_lookup key d <> Some (PList vs)) \/
   (exists ts vs,
      dict_lookup "time" d = Some (PList ts) /\
      dict_lookup key d = Some (PList vs) /\
      (length ts <> length vs \/ ts = [])) ->
   _last_past_value E (PDict d) key st = (Ok None, st)) /\
  (forall ts vs,
     dict_lookup "time" d = Some (PList ts) ->
     dict_lookup key d = Some (PList vs) ->
     length ts = length vs -> ts <> [] ->
     (forall i t v,
        ts !! i = Some t -> vs !! i = Some v ->
        past (now_of st) t = true -> v <> PNone ->
        (forall j t' v', (i < j)%nat -> ts !! j = Some t' -> vs !! j = Some v' ->
           past (now_of st) t' = false \/ v' = PNone) ->
        fst (_last_past_value E (PDict d) key st) = Ok (float_or_absent v)) /\
     ((forall j t' v', ts !! j = Some t' -> vs !! j = Some v' ->
         past (now_of st) t' = false \/ v' = PNone) ->
      fst (_last_past_value E (PDict d) key st) = Ok None)) /\
  (forall s dt,
     fromisoformat E (replace_Z s) = Some dt -> tzinfo dt = None ->
     exists u, _parse_iso_ts E (PStr s) = Some u /\ instant u = wall dt).
Proof.
  split; [apply last_past_value_invalid|split].
  - intros ts vs Ht Hv Hlen Hne.
    rewrite (last_past_value_run d key ts vs st Ht Hv Hlen Hne). cbn [fst].
    split.
    + intros i t v Hti Hvi Hp Hnn Hskip.
      apply scan_back_greatest with i t; try assumption.
      * now apply lookup_lt_Some with t.
      * lia.
      * intros j t' v' Hj. apply Hskip. lia.
    + intros Hskip.
      rewrite (scan_back_passes (now_of st) ts vs (length ts) 0);
        [reflexivity|lia|lia|assumption|].
      intros j t' v' _. apply Hskip.
  - intros s dt Hdt Htz.
    exists (replace_tz_utc dt). split.
    + unfold _parse_iso_ts, str_replace_Z, datetime_fromisoformat, res_bind.
      now rewrite Hdt, Htz.
    + unfold instant, replace_tz_utc. cbn. lia.
Qed.

(** C2, amended. In the backward scan an index whose timestamp does not
    parse or is after now, or whose value is null, is passed over and
    the scan goes on with the next earlier index: with a null at the
    most recent past index the result is the one of the next earlier
    index that qualifies. A value that is not null and that [float]
    rejects at a past index is not passed over: the scan ends there
    with [None]. When every index is passed over the result is [None]. *)
Theorem scan_back_skips now ts vs i t v :
  ts !! i = Some t -> vs !! i = Some v -> length ts = length vs ->
  (_parse_iso_ts E t = None \/ past now t = false \/ v = PNone ->
   scan_back E now ts vs (S i) = scan_back E now ts vs i) /\
  (v = PNone ->
   forall i' t' v',
     (i' < i)%nat -> ts !! i' = Some t' -> vs !! i' = Some v' ->
     past now t' = true -> v' <> PNone ->
     (forall j u w, (i' < j < i)%nat -> ts !! j = Some u -> vs !! j = Some w ->
        past now u = false \/ w = PNone) ->
     scan_back E now ts vs (S i) = Ok (float_or_absent v')) /\
  (past now t = true -> v <> PNone -> float_or_absent v = None ->
   scan_back E now ts vs (S i) = Ok None) /\
  ((forall j u w, (j <= i)%nat -> ts !! j = Some u -> vs !! j = Some w ->
      past now u = false \/ w = PNone) ->
   scan_back E now ts vs (S i) = Ok None).
Proof.
  intros Ht Hv Hlen.
  assert (Hi : (i < length ts)%nat) by now apply lookup_lt_Some with t.
  repeat split.
  - intros [Hu|[Hp| ->]].
    + apply scan_back_not_past with t; [assumption|].
      unfold past. now rewrite Hu.
    + now apply scan_back_not_past with t.
    + now apply scan_back_null with t.
  - intros -> i' t' v' Hlt Ht' Hv' Hp Hnn Hskip.
    apply scan_back_greatest with i' t'; try assumption; try lia.
    intros j u w Hj Hu Hw.
    destruct (decide (j = i)) as [->|Hne].
    + right. congruence.
    + apply (Hskip j u w); [lia|assumption|assumption].
  - intros Hp Hnn Hf.
    rewrite (scan_back_hit now ts vs i t v Ht Hv Hp Hnn). now rewrite Hf.
  - intros Hskip.
    rewrite (scan_back_passes now ts vs (S i) 0);
      [reflexivity|lia|lia|assumption|].
    intros j u w Hj. apply Hskip. lia.
Qed.

(** ** Blocks of field statements *)

Lemma set_gauges_same st : set_gauges (gauges st) st = st.
Proof. now destruct st. Qed.

Lemma apply_updates_app us vs g :
  apply_updates (us ++ vs) g = apply_updates vs (apply_updates us g).
Proof.
  revert g. induction us as [|[k x] us IH]; intros g; [reflexivity|].
  cbn. apply IH.
Qed.

Lemma apply_updates_lookup us g k :
  apply_updates us g !! k =
  match last_write us k with
  | Some y => Some y
  | None => g !! k
  end.
Proof.
  revert g. induction us as [|[k' x] us IH]; intros g; [reflexivity|].
  cbn. rewrite IH. destruct (last_write us k); [reflexivity|].
  destruct (decide (k' = k)) as [->|Hne].
  - apply lookup_insert_eq.
  - now apply lookup_insert_ne.
Qed.


(** A gauge that has a value keeps one. *)
Lemma apply_updates_keeps us g k :
  is_Some (g !! k) -> is_Some (apply_updates us g !! k).
Proof.
  intros H. rewrite apply_updates_lookup. now destruct (last_write us k).
Qed.

Lemma set_if_not_none_sets g k c :
  sets (set_if_not_none E g k c) g (field_not_none c k).
Proof.
  intros st. unfold set_if_not_none, field_not_none, bind, lift, res_bind.
  destruct (py_contains k c) as [[|]|e]; [|reflexivity..].
  destruct (py_getitem c k) as [v|e]; [|reflexivity].
  destruct (is_none v); [reflexivity|].
  now destruct (py_float E v).
Qed.

Lemma set_if_present_sets g k conv c :
  sets (set_if_present E g k conv c) g (field_present conv c k).
Proof.
  intros st. unfold set_if_present, field_present, bind, lift, res_bind.
  destruct (py_contains k c) as [[|]|e]; [|reflexivity..].
  destruct (py_getitem c k) as [v|e]; [|reflexivity].
  now destruct (py_float E v).
Qed.

Lemma set_price_sets g p : sets (set_price E g p) g (price_field p).
Proof.
  intros st. unfold set_price, price_field.
  destruct (truthy p); [apply set_if_not_none_sets|reflexivity].
Qed.

Lemma set_if_some_sets g v : sets (set_if_some g v) g (Ok v).
Proof. intros st. now destruct v. Qed.

Lemma block_tail {A} (tail : M A) : block tail [] tail.
Proof. intros st. unfold written. cbn. now rewrite set_gauges_same. Qed.

Lemma block_cons {A} (s : M unit) g r (k : M A) fs tail :
  sets s g r -> block k fs tail -> block (s ;; k) ((g, r) :: fs) tail.
Proof.
  intros Hs Hk st. rewrite bind_run, Hs. unfold written.
  destruct r as [[x|]|e]; cbn [first_failure published apply_updates].
  - apply Hk.
  - apply Hk.
  - now rewrite set_gauges_same.
Qed.

Lemma block_last (s : M unit) g r : sets s g r -> block s [(g, r)] (ret tt).
Proof.
  intros Hs st. rewrite Hs. unfold written.
  destruct r as [[x|]|e]; cbn; try reflexivity; now rewrite set_gauges_same.
Qed.

Lemma finish_written msg fs st :
  finish msg fs st = warned msg (first_failure fs) (written fs st).
Proof. reflexivity. Qed.

(** A [try] around a block whose handler logs [msg] and yields [b]. *)
Lemma try_block_run {A} (k : M A) fs (a b : A) msg st :
  block k fs (ret a) ->
  try_except k (fun e => log_warn msg e ;; ret b) st =
  (match first_failure fs with None => Ok a | Some _ => Ok b end,
   finish msg fs st).
Proof.
  intros Hk. unfold try_except. rewrite Hk. unfold finish, written.
  destruct (first_failure fs); reflexivity.
Qed.

(** The same with a handler that only logs. *)
Lemma try_block_unit_run (k : M unit) fs msg st :
  block k fs (ret tt) ->
  try_except k (fun e => log_warn msg e) st = (Ok tt, finish msg fs st).
Proof.
  intros Hk. unfold try_except. rewrite Hk. unfold finish, written.
  destruct (first_failure fs); reflexivity.
Qed.

(** ** The collectors, statement by statement *)

Lemma prologue_run {A} api url (k : pyobj -> option exn -> M A) st :
  ('(data, latency, err) <- timed_get E api url ;;
   api_latency_observe api latency ;;
   t <- py_time_time E ;;
   api_last_scrape_set api t ;;
   k data err) st
  = k (payload url st) (error url st) (recorded api url st).
Proof.
  rewrite bind_run, timed_get_run.
  unfold fetch_triple, payload, error, answer, recorded.
  destruct (fetch_result (http E (length (requests st)) url)); reflexivity.
Qed.

Lemma scan_back_total now ts vs n :
  (n <= length ts)%nat -> length ts = length vs ->
  exists o, scan_back E now ts vs n = Ok o.
Proof.
  intros Hn Hlen. induction n as [|n IH]; [now exists None|].
  assert (Hlt : (n < length ts)%nat) by lia.
  destruct (lookup_lt_is_Some_2 ts n Hlt) as [t Ht].
  assert (Hlt' : (n < length vs)%nat) by lia.
  destruct (lookup_lt_is_Some_2 vs n Hlt') as [v Hv].
  destruct IH as [o IH]; [lia|].
  cbn [scan_back]. rewrite Ht, Hv, IH.
  destruct (_parse_iso_ts E t); [|now exists o].
  destruct (dt_le d now); [|now exists o].
  destruct (is_none v); [now exists o|].
  destruct (py_float E v); eauto.
Qed.

Lemma last_past_value_dict d key st :
  _last_past_value E (PDict d) key st
  = (Ok (selected d key st), ticked d key st).
Proof.
  unfold selected, ticked, series_of.
  destruct (dict_lookup "time" d) as [[| | | | |ts|]|] eqn:Ht;
    try (apply last_past_value_invalid; left; intros ts'; congruence).
  destruct (dict_lookup key d) as [[| | | | |vs|]|] eqn:Hv;
    try (apply last_past_value_invalid; right; left; intros vs'; congruence).
  destruct (length ts =? length vs)%nat eqn:Hlen; cbn [andb].
  - apply Nat.eqb_eq in Hlen.
    destruct (bool_decide (ts = [])) eqn:Hnil; cbn [negb].
    + apply bool_decide_eq_true in Hnil.
      apply last_past_value_invalid. right. right. exists ts, vs. auto.
    + apply bool_decide_eq_false in Hnil.
      rewrite (last_past_value_run d key ts vs st Ht Hv Hlen Hnil).
      destruct (scan_back_total (now_of st) ts vs (length ts)) as [o Ho];
        [lia|assumption|].
      now rewrite Ho.
  - apply Nat.eqb_neq in Hlen.
    apply last_past_value_invalid. right. right. exists ts, vs. auto.
Qed.

Lemma last_past_value_not_dict h key st :
  (forall d, h <> PDict d) ->
  _last_past_value E h key st = (Raise AttributeError, st).
Proof.
  intros Hh. unfold _last_past_value, bind, lift.
  destruct h; try reflexivity. now destruct (Hh d).
Qed.

Lemma poll_openmeteo_weather_run st :
  let s := recorded "openmeteo_weather" weather_url st in
  let data := payload weather_url st in
  let err := error weather_url st in
  poll_openmeteo_weather E st =
  match unusable err data "current" with
  | Raise e => (Raise e, s)
  | Ok true => (Ok tt, warned "openmeteo_weather: " err s)
  | Ok false =>
      match py_getitem data "current" with
      | Raise e => (Raise e, s)
      | Ok c =>
          (Ok tt,
           finish "openmeteo_weather: parse current failed: "
             (weather_fields c) s)
      end
  end.
Proof.
  cbn zeta. unfold poll_openmeteo_weather. rewrite prologue_run.
  rewrite bind_run. unfold lift at 1.
  destruct (unusable _ _ _) as [[|]|e]; [|rewrite bind_run; unfold lift at 1|reflexivity].
  - now destruct (error weather_url st).
  - destruct (py_getitem _ _) as [c|e]; [|reflexivity].
    apply try_block_unit_run.
    repeat apply block_cons; try apply block_last; apply set_if_present_sets.
Qed.

Lemma poll_fx_run st :
  let s := recorded "frankfurter" fx_url st in
  let data := payload fx_url st in
  let err := error fx_url st in
  poll_fx E st =
  match unusable err data "rates" with
  | Raise e => (Raise e, s)
  | Ok true => (Ok tt, warned "frankfurter: " err s)
  | Ok false =>
      match py_getitem data "rates" with
      | Raise e => (Ok tt, warned "frankfurter: parse failed: " (Some e) s)
      | Ok rates => (Ok tt, finish "frankfurter: parse failed: " (fx_fields rates) s)
      end
  end.
Proof.
  cbn zeta. unfold poll_fx. rewrite prologue_run.
  rewrite bind_run. unfold lift at 1.
  destruct (unusable _ _ _) as [[|]|e]; [| |reflexivity].
  - now destruct (error fx_url st).
  - rewrite try_lift_bind.
    destruct (py_getitem _ _) as [rates|e]; [|reflexivity].
    apply try_block_unit_run.
    repeat apply block_cons; try apply block_last; apply set_if_not_none_sets.
Qed.

Lemma poll_crypto_run st :
  let s1 := recorded "binance" btc_url st in
  let s2 := recorded "binance" eth_url s1 in
  poll_crypto E st =
  (Ok tt,
   finish "binance: parse failed: "
     (crypto_fields (payload btc_url st) (payload eth_url s1))
     (warned "binance ETH: " (error eth_url s1)
        (warned "binance BTC: " (error btc_url st) s2))).
Proof.
  cbn zeta. unfold poll_crypto. rewrite prologue_run, prologue_run.
  rewrite bind_run.
  replace (log_warn_if ("binance" ++ " BTC: ") (error btc_url st)
             (recorded "binance" eth_url (recorded "binance" btc_url st)))
    with (Ok tt, warned "binance BTC: " (error btc_url st)
                   (recorded "binance" eth_url (recorded "binance" btc_url st)))
    by now destruct (error btc_url st).
  rewrite bind_run.
  match goal with
  | |- context [log_warn_if ?m ?e ?s] =>
      replace (log_warn_if m e s) with (Ok tt, warned "binance ETH: " e s)
        by now destruct e
  end.
  apply try_block_unit_run.
  repeat apply block_cons; try apply block_last; apply set_price_sets.
Qed.

Lemma poll_openmeteo_air_current_run st :
  let s := recorded "openmeteo_air" air_url_current st in
  let data := payload air_url_current st in
  let err := error air_url_current st in
  poll_openmeteo_air_current E st =
  match unusable err data "current" with
  | Raise e => (Raise e, s)
  | Ok true => (Ok false, s)
  | Ok false =>
      match py_getitem data "current" with
      | Raise e => (Raise e, s)
      | Ok c =>
          (match first_failure (air_fields c) with
           | None => Ok true
           | Some _ => Ok false
           end,
           finish "openmeteo_air: parse current failed: " (air_fields c) s)
      end
  end.
Proof.
  cbn zeta. unfold poll_openmeteo_air_current. rewrite prologue_run.
  rewrite bind_run. unfold lift at 1.
  destruct (unusable _ _ _) as [[|]|e]; [reflexivity| |reflexivity].
  rewrite bind_run. unfold lift at 1.
  destruct (py_getitem _ _) as [c|e]; [|reflexivity].
  apply (try_block_run _ (air_fields c) true false).
  repeat apply block_cons; try apply block_tail; apply set_if_not_none_sets.
Qed.

Lemma poll_openmeteo_air_hourly_run st :
  let s := recorded "openmeteo_air" air_url_hourly st in
  let data := payload air_url_hourly st in
  let err := error air_url_hourly st in
  poll_openmeteo_air_hourly E st =
  match unusable err data "hourly" with
  | Raise e => (Raise e, s)
  | Ok true => (Ok tt, warned "openmeteo_air: " err s)
  | Ok false =>
      match py_getitem data "hourly" with
      | Raise e => (Raise e, s)
      | Ok (PDict d) => (Ok tt, written (hourly_fields d s) (hourly_read d s))
      | Ok _ =>
          (Ok tt,
           warned "openmeteo_air: parse hourly failed: " (Some AttributeError) s)
      end
  end.
Proof.
  cbn zeta. unfold poll_openmeteo_air_hourly. rewrite prologue_run.
  rewrite bind_run. unfold lift at 1.
  destruct (unusable _ _ _) as [[|]|e]; [| |reflexivity].
  { now destruct (error air_url_hourly st). }
  rewrite bind_run. unfold lift at 1.
  destruct (py_getitem _ _) as [h|e]; [|reflexivity].
  set (s := recorded "openmeteo_air" air_url_hourly st).
  destruct h as [| | | | | |d];
    try (unfold try_except; rewrite bind_run,
           (last_past_value_not_dict _ "pm10" s) by congruence; reflexivity).
  unfold try_except.
  rewrite bind_run, last_past_value_dict.
  rewrite bind_run, last_past_value_dict.
  rewrite bind_run, last_past_value_dict.
  assert (Hb : block
            (set_if_some "air_pm10_ugm3" (selected d "pm10" s) ;;
             set_if_some "air_pm25_ugm3" (selected d "pm2_5" (ticked d "pm10" s)) ;;
             set_if_some "air_us_aqi"
               (selected d "us_aqi" (ticked d "pm2_5" (ticked d "pm10" s))))
            (hourly_fields d s) (ret tt)).
  { repeat apply block_cons; try apply block_last; apply set_if_some_sets. }
  rewrite Hb. reflexivity.
Qed.

Lemma poll_openmeteo_air_run st :
  poll_openmeteo_air E st =
  match poll_openmeteo_air_current E st with
  | (Ok true, s) => (Ok tt, s)
  | (Ok false, s) => poll_openmeteo_air_hourly E s
  | (Raise e, s) => (Raise e, s)
  end.
Proof.
  unfold poll_openmeteo_air. rewrite bind_run.
  destruct (poll_openmeteo_air_current E st) as [[[|]|e] s]; reflexivity.
Qed.

Lemma set_so_tag_count_same st : set_so_tag_count (so_tag_count st) st = st.
Proof. now destruct st. Qed.

Lemma touch_lookup t (m : gmap string float) k :
  touch t m !! k =
  match m !! k with
  | Some v => Some v
  | None => if decide (t = k) then Some 0%float else None
  end.
Proof.
  unfold touch. destruct (decide (t = k)) as [->|Hne].
  - destruct (m !! k) eqn:Hk; [now rewrite Hk|apply lookup_insert_eq].
  - destruct (m !! t); [now destruct (m !! k)|].
    rewrite lookup_insert_ne by assumption. now destruct (m !! k).
Qed.

Lemma insert_touch t x (m : gmap string float) :
  <[t := x]> (touch t m) = <[t := x]> m.
Proof.
  unfold touch. destruct (m !! t); [reflexivity|apply insert_insert_eq].
Qed.

Lemma tags_after_cons item rest m :
  tags_after (item :: rest) m =
  match item_field item with
  | Ok None => tags_after rest m
  | Ok (Some (t, Ok x)) => tags_after rest (<[t := x]> m)
  | Ok (Some (t, Raise _)) => touch t m
  | Raise _ => m
  end.
Proof.
  unfold tags_after. cbn [tags_published tags_touched].
  destruct (item_field item) as [[[t [x|e]]|]|e]; reflexivity.
Qed.

Lemma so_item_run item st :
  so_item E item st =
  match item_field item with
  | Ok None => (Ok tt, st)
  | Ok (Some (t, Ok x)) =>
      (Ok tt, set_so_tag_count (<[t := x]> (so_tag_count st)) st)
  | Ok (Some (t, Raise e)) =>
      (Raise e, set_so_tag_count (touch t (so_tag_count st)) st)
  | Raise e => (Raise e, st)
  end.
Proof.
  unfold so_item, item_field, bind, lift, res_bind.
  destruct (py_get item "name") as [name|e]; [|reflexivity].
  destruct (py_get item "count") as [cnt|e]; [|reflexivity].
  destruct (truthy name && negb (is_none cnt)); [|reflexivity].
  unfold so_tag_count_labels, so_tag_count_set.
  destruct (py_float E cnt); [|reflexivity].
  cbn [so_tag_count set_so_tag_count]. now rewrite insert_touch.
Qed.

Lemma for_each_so_item_run items st :
  for_each (so_item E) items st =
  (match tags_failure items with
   | None => Ok tt
   | Some e => Raise e
   end,
   set_so_tag_count (tags_after items (so_tag_count st)) st).
Proof.
  revert st. induction items as [|item rest IH]; intros st.
  - cbn. now rewrite set_so_tag_count_same.
  - cbn [for_each tags_failure]. rewrite tags_after_cons, bind_run, so_item_run.
    destruct (item_field item) as [[[t [x|e]]|]|e].
    + rewrite IH. reflexivity.
    + reflexivity.
    + apply IH.
    + now rewrite set_so_tag_count_same.
Qed.

Lemma poll_stackoverflow_run st :
  let s0 := gate_passed st in
  let s := recorded "stackoverflow" so_url s0 in
  let data := payload so_url s0 in
  let err := error so_url s0 in
  poll_stackoverflow E st =
  if gate_closed st then (Ok tt, set_ticks (S (ticks st)) st)
  else
    match unusable err data "items" with
    | Raise e => (Raise e, s)
    | Ok true => (Ok tt, warned "stackoverflow: " err s)
    | Ok false => (Ok tt, so_parsed data s)
    end.
Proof.
  cbn zeta. unfold poll_stackoverflow, gate_closed.
  rewrite bind_run. cbn [py_time_time].
  rewrite bind_run. cbn [read_LAST_SO_POLL LAST_SO_POLL set_ticks].
  destruct (PrimFloat.ltb _ _); [reflexivity|].
  rewrite bind_run. cbn [py_time_time ticks set_ticks].
  rewrite bind_run. unfold write_LAST_SO_POLL at 1.
  change (set_LAST_SO_POLL _ _) with (gate_passed st).
  rewrite prologue_run.
  rewrite bind_run. unfold lift at 1.
  destruct (unusable _ _ _) as [[|]|e]; [| |reflexivity].
  { now destruct (error so_url (gate_passed st)). }
  unfold so_parsed, so_items.
  rewrite try_lift_bind.
  destruct (py_getitem _ _) as [v|e]; [|reflexivity].
  rewrite try_lift_bind. cbn [res_bind].
  destruct (py_iter v) as [items|e]; [|reflexivity].
  unfold try_except. rewrite for_each_so_item_run.
  destruct (tags_failure items); reflexivity.
Qed.

(** *** What the collectors leave alone *)

(** A component [p] of the state that a transformer does not write is
    the same after it. Each lemma asks [p] to be blind to the setters
    the transformer is made of. *)
Lemma warned_keeps {A} (p : state -> A) msg err s :
  (forall l s, p (set_log l s) = p s) -> p (warned msg err s) = p s.
Proof. intros H. unfold warned. now destruct err. Qed.

Lemma written_keeps {A} (p : state -> A) fs s :
  (forall g s, p (set_gauges g s) = p s) -> p (written fs s) = p s.
Proof. intros H. apply H. Qed.

Lemma finish_keeps {A} (p : state -> A) msg fs s :
  (forall g s, p (set_gauges g s) = p s) ->
  (forall l s, p (set_log l s) = p s) ->
  p (finish msg fs s) = p s.
Proof.
  intros Hg Hl. rewrite finish_written, warned_keeps by assumption. apply Hg.
Qed.

Lemma ticked_keeps {A} (p : state -> A) d key s :
  (forall n s, p (set_ticks n s) = p s) -> p (ticked d key s) = p s.
Proof. intros H. unfold ticked. now destruct (series_of d key). Qed.

Lemma hourly_read_keeps {A} (p : state -> A) d s :
  (forall n s, p (set_ticks n s) = p s) -> p (hourly_read d s) = p s.
Proof. intros H. unfold hourly_read. now rewrite !ticked_keeps. Qed.

Lemma after_fetch_keeps {A} (p : state -> A) api url s :
  (forall n s, p (set_ticks n s) = p s) ->
  (forall r s, p (set_requests r s) = p s) ->
  (forall c s, p (set_api_success_total c s) = p s) ->
  (forall c s, p (set_api_fail_total c s) = p s) ->
  p (after_fetch api url s) = p s.
Proof.
  intros Ht Hr Hs Hf. unfold after_fetch. cbn zeta. rewrite Ht.
  destruct (fetch_result _); now rewrite ?Hs, ?Hf, Hr, Ht.
Qed.

Lemma recorded_keeps {A} (p : state -> A) api url s :
  (forall n s, p (set_ticks n s) = p s) ->
  (forall r s, p (set_requests r s) = p s) ->
  (forall c s, p (set_api_success_total c s) = p s) ->
  (forall c s, p (set_api_fail_total c s) = p s) ->
  (forall c s, p (set_api_latency_seconds c s) = p s) ->
  (forall c s, p (set_api_last_scrape c s) = p s) ->
  p (recorded api url s) = p s.
Proof.
  intros Ht Hr Hs Hf Hl Hc. unfold recorded. cbn zeta.
  rewrite Hc, Ht, Hl. now apply after_fetch_keeps.
Qed.

Lemma so_parsed_keeps {A} (p : state -> A) data s :
  (forall g s, p (set_so_tag_count g s) = p s) ->
  (forall l s, p (set_log l s) = p s) ->
  p (so_parsed data s) = p s.
Proof.
  intros Hg Hl. unfold so_parsed.
  destruct (so_items data); rewrite warned_keeps by assumption;
    [apply Hg|reflexivity].
Qed.

Lemma recorded_requests api url s :
  requests (recorded api url s) = url :: requests s.
Proof.
  unfold recorded, after_fetch. cbn zeta. now destruct (fetch_result _).
Qed.

(** Rewrites [p (f s)] to [p s] for the transformers [f] above. *)
Ltac frame_at p :=
  repeat first
    [ rewrite (finish_keeps p) by reflexivity
    | rewrite (warned_keeps p) by reflexivity
    | rewrite (written_keeps p) by reflexivity
    | rewrite (hourly_read_keeps p) by reflexivity
    | rewrite (ticked_keeps p) by reflexivity
    | rewrite (so_parsed_keeps p) by reflexivity
    | rewrite (recorded_keeps p) by reflexivity ].

Ltac frame :=
  frame_at gauges; frame_at so_tag_count; frame_at LAST_SO_POLL;
  frame_at requests; frame_at log.

(** Splits on the tests a collector makes on its payload. *)
Ltac payload_cases :=
  cbn zeta;
  repeat match goal with
         | |- context [match unusable ?a ?b ?c with _ => _ end] =>
             destruct (unusable a b c) as [[|]|?]
         | |- context [match py_getitem ?a ?b with _ => _ end] =>
             destruct (py_getitem a b) as [[]|?]
         end;
  cbn [snd fst].

Ltac frame_of H :=
  destruct H as [? ? ? ? ? ? ? ?];
  payload_cases;
  repeat first
    [ rewrite finish_keeps by assumption
    | rewrite warned_keeps by assumption
    | rewrite written_keeps by assumption
    | rewrite hourly_read_keeps by assumption
    | rewrite ticked_keeps by assumption
    | rewrite so_parsed_keeps by assumption
    | rewrite recorded_keeps by assumption ];
  try reflexivity.

Lemma weather_keeps {A} (p : state -> A) st :
  untouched p -> p (snd (poll_openmeteo_weather E st)) = p st.
Proof. intros H. rewrite poll_openmeteo_weather_run. frame_of H. Qed.

Lemma air_current_keeps {A} (p : state -> A) st :
  untouched p -> p (snd (poll_openmeteo_air_current E st)) = p st.
Proof. intros H. rewrite poll_openmeteo_air_current_run. frame_of H. Qed.

Lemma air_hourly_keeps {A} (p : state -> A) st :
  untouched p -> p (snd (poll_openmeteo_air_hourly E st)) = p st.
Proof. intros H. rewrite poll_openmeteo_air_hourly_run. frame_of H. Qed.

Lemma air_keeps {A} (p : state -> A) st :
  untouched p -> p (snd (poll_openmeteo_air E st)) = p st.
Proof.
  intros H. rewrite poll_openmeteo_air_run.
  pose proof (air_current_keeps p st H) as Hc.
  destruct (poll_openmeteo_air_current E st) as [[[|]|e] s]; cbn [snd] in *;
    try assumption.
  now rewrite air_hourly_keeps.
Qed.

Lemma fx_keeps {A} (p : state -> A) st :
  untouched p -> p (snd (poll_fx E st)) = p st.
Proof. intros H. rewrite poll_fx_run. frame_of H. Qed.

Lemma crypto_keeps {A} (p : state -> A) st :
  untouched p -> p (snd (poll_crypto E st)) = p st.
Proof. intros H. rewrite poll_crypto_run. frame_of H. Qed.

Lemma stackoverflow_keeps {A} (p : state -> A) st :
  untouched p ->
  (forall x s, p (set_LAST_SO_POLL x s) = p s) ->
  (forall x s, p (set_so_tag_count x s) = p s) ->
  p (snd (poll_stackoverflow E st)) = p st.
Proof.
  intros H HL HT. rewrite poll_stackoverflow_run.
  assert (Hg : p (gate_passed st) = p st).
  { unfold gate_passed. rewrite HL. apply H. }
  destruct (gate_closed st); [apply H|].
  frame_of H; assumption.
Qed.

Lemma LAST_SO_POLL_untouched : untouched LAST_SO_POLL.
Proof. now split. Qed.

Lemma sleeps_untouched : untouched sleeps.
Proof. now split. Qed.

Lemma so_tag_count_untouched : untouched so_tag_count.
Proof. now split. Qed.

Lemma recorded_latency api url s :
  api_latency_seconds (recorded api url s) =
  <[api := PrimFloat.sub (time_time E (S (ticks s))) (time_time E (ticks s))
           :: default [] (api_latency_seconds s !! api)]>
    (api_latency_seconds s).
Proof.
  unfold recorded. cbn zeta. cbn [api_latency_seconds set_api_last_scrape set_ticks
    set_api_latency_seconds].
  now rewrite (after_fetch_keeps api_latency_seconds).
Qed.

(** ** The rate gate of the tag statistics *)

(** C8. [poll_stackoverflow] sends at most one request per call, and
    none when the clock it reads is less than [SO_MIN_PERIOD] = 600
    seconds after [LAST_SO_POLL]: the call then only reads the clock.
    It sends no request and writes neither [LAST_SO_POLL] nor the last
    scrape time of the source, nor any gauge, counter or log line. *)
Theorem poll_stackoverflow_gated st :
  (PrimFloat.ltb
     (PrimFloat.sub (time_time E (ticks st)) (LAST_SO_POLL st)) SO_MIN_PERIOD
   = true ->
   poll_stackoverflow E st = (Ok tt, set_ticks (S (ticks st)) st) /\
   requests (snd (poll_stackoverflow E st)) = requests st /\
   LAST_SO_POLL (snd (poll_stackoverflow E st)) = LAST_SO_POLL st /\
   api_last_scrape_timestamp_seconds (snd (poll_stackoverflow E st))
   = api_last_scrape_timestamp_seconds st /\
   so_tag_count (snd (poll_stackoverflow E st)) = so_tag_count st) /\
  (if PrimFloat.ltb
        (PrimFloat.sub (time_time E (ticks st)) (LAST_SO_POLL st)) SO_MIN_PERIOD
   then requests (snd (poll_stackoverflow E st)) = requests st
   else requests (snd (poll_stackoverflow E st)) = so_url :: requests st).
Proof.
  rewrite poll_stackoverflow_run. unfold gate_closed. split.
  - intros ->. cbn. repeat split; reflexivity.
  - destruct (PrimFloat.ltb _ _); [reflexivity|].
    payload_cases; frame; rewrite recorded_requests; reflexivity.
Qed.

(** C10. When the gate lets a call through, [LAST_SO_POLL] is set to
    the clock read that precedes the timing of the request, whatever the
    answer of the network: the call leaves that stamp and one request
    behind. A later call that reads a clock less than 600 seconds after
    the stamp sends nothing and keeps the stamp, so a call that does
    send has read a clock that is not less than 600 seconds after the
    stamp of the request before it. The other collectors never write
    [LAST_SO_POLL]. *)
Theorem poll_stackoverflow_stamps_first st :
  gate_closed st = false ->
  let stamp := time_time E (S (ticks st)) in
  let st' := snd (poll_stackoverflow E st) in
  requests st' = so_url :: requests st /\
  LAST_SO_POLL st' = stamp /\
  api_latency_seconds st' !! "stackoverflow"
  = Some (PrimFloat.sub (time_time E (S (S (S (ticks st)))))
            (time_time E (S (S (ticks st))))
          :: default [] (api_latency_seconds st !! "stackoverflow")) /\
  (forall st2,
     LAST_SO_POLL st2 = stamp -> gate_closed st2 = true ->
     requests (snd (poll_stackoverflow E st2)) = requests st2 /\
     LAST_SO_POLL (snd (poll_stackoverflow E st2)) = stamp) /\
  (forall st2,
     LAST_SO_POLL st2 = stamp ->
     requests (snd (poll_stackoverflow E st2)) = so_url :: requests st2 ->
     PrimFloat.ltb (PrimFloat.sub (time_time E (ticks st2)) stamp) SO_MIN_PERIOD
     = false) /\
  (forall s,
     LAST_SO_POLL (snd (poll_openmeteo_weather E s)) = LAST_SO_POLL s /\
     LAST_SO_POLL (snd (poll_openmeteo_air E s)) = LAST_SO_POLL s /\
     LAST_SO_POLL (snd (poll_fx E s)) = LAST_SO_POLL s /\
     LAST_SO_POLL (snd (poll_crypto E s)) = LAST_SO_POLL s).
Proof.
  intros Hgate. cbn zeta.
  split; [|split; [|split; [|split; [|split]]]].
  - rewrite poll_stackoverflow_run, Hgate.
    payload_cases; frame; rewrite recorded_requests; reflexivity.
  - rewrite poll_stackoverflow_run, Hgate.
    payload_cases; now frame.
  - rewrite poll_stackoverflow_run, Hgate.
    assert (Hl : api_latency_seconds (gate_passed st) = api_latency_seconds st)
      by reflexivity.
    payload_cases;
      rewrite ?(finish_keeps api_latency_seconds),
              ?(warned_keeps api_latency_seconds),
              ?(so_parsed_keeps api_latency_seconds) by reflexivity;
      rewrite recorded_latency, lookup_insert_eq, Hl; reflexivity.
  - intros st2 Hlast Hclosed. rewrite poll_stackoverflow_run, Hclosed.
    split; [reflexivity|exact Hlast].
  - intros st2 Hlast Hsent.
    rewrite poll_stackoverflow_run in Hsent. unfold gate_closed in Hsent.
    rewrite Hlast in Hsent.
    destruct (PrimFloat.ltb _ _); [|reflexivity].
    cbn in Hsent. exfalso.
    apply (f_equal length) in Hsent. cbn in Hsent. lia.
  - intros s. repeat split.
    + apply weather_keeps, LAST_SO_POLL_untouched.
    + apply air_keeps, LAST_SO_POLL_untouched.
    + apply fx_keeps, LAST_SO_POLL_untouched.
    + apply crypto_keeps, LAST_SO_POLL_untouched.
Qed.

(** ** The loop *)

Lemma repeat_then_cons {A} (x : A) n (l : list A) :
  (repeat x n ++ x :: l = repeat x (S n) ++ l)%list.
Proof. induction n as [|n IH]; cbn in *; congruence. Qed.

Lemma cycle_run st :
  cycle E st =
  (Ok tt, turn_end (fst (run_all collectors st)) (snd (run_all collectors st))).
Proof.
  unfold cycle, collectors, run_all, turn_end, try_except, time_sleep, log_warn.
  rewrite !bind_run.
  destruct (poll_openmeteo_weather E st) as [[[]|e] s1]; [|reflexivity].
  rewrite !bind_run.
  destruct (poll_openmeteo_air E s1) as [[[]|e] s2]; [|reflexivity].
  rewrite !bind_run.
  destruct (poll_fx E s2) as [[[]|e] s3]; [|reflexivity].
  rewrite !bind_run.
  destruct (poll_crypto E s3) as [[[]|e] s4]; [|reflexivity].
  rewrite !bind_run.
  destruct (poll_stackoverflow E s4) as [[[]|e] s5]; reflexivity.
Qed.

Lemma run_all_raise (pre : list (M unit)) (c : M unit) (post : list (M unit))
    st s1 e s2 :
  run_all pre st = (Ok tt, s1) -> c s1 = (Raise e, s2) ->
  run_all (pre ++ c :: post)%list st = (Raise e, s2).
Proof.
  revert st. induction pre as [|c0 pre IH]; intros st Hpre Hc.
  - cbn in Hpre. injection Hpre as <-. cbn. now rewrite bind_run, Hc.
  - cbn [run_all app] in *. rewrite bind_run in *.
    destruct (c0 st) as [[[]|e0] s0]; [|discriminate].
    now apply IH.
Qed.

Lemma run_all_keeps {A} (p : state -> A) cs st :
  Forall (fun c => forall s, p (snd (c s)) = p s) cs ->
  p (snd (run_all cs st)) = p st.
Proof.
  intros H. revert st. induction H as [|c cs Hc _ IH]; intros st.
  - reflexivity.
  - cbn [run_all]. rewrite bind_run. specialize (Hc st).
    destruct (c st) as [[[]|e] s]; cbn [snd] in *.
    + now rewrite IH.
    + assumption.
Qed.

Lemma collectors_keep_sleeps st :
  sleeps (snd (run_all collectors st)) = sleeps st.
Proof.
  apply run_all_keeps. unfold collectors.
  repeat apply Forall_cons_2; try apply Forall_nil_2; intros s.
  - apply weather_keeps, sleeps_untouched.
  - apply air_keeps, sleeps_untouched.
  - apply fx_keeps, sleeps_untouched.
  - apply crypto_keeps, sleeps_untouched.
  - apply stackoverflow_keeps; [apply sleeps_untouched|reflexivity..].
Qed.

Lemma air_hourly_requests st :
  requests (snd (poll_openmeteo_air_hourly E st)) = air_url_hourly :: requests st.
Proof.
  rewrite poll_openmeteo_air_hourly_run.
  payload_cases; frame; apply recorded_requests.
Qed.

Lemma air_current_requests st :
  requests (snd (poll_openmeteo_air_current E st))
  = air_url_current :: requests st.
Proof.
  rewrite poll_openmeteo_air_current_run.
  payload_cases; frame; apply recorded_requests.
Qed.

(** ** The requests of a turn *)

Lemma sends_refl s : sends 0 s s.
Proof. exists []. split; [reflexivity|cbn; lia]. Qed.

Lemma sends_more h h' s s' : (h <= h')%nat -> sends h s s' -> sends h' s s'.
Proof. intros Hle (sent & Hs & Hl). exists sent. split; [assumption|lia]. Qed.

Lemma sends_trans h1 h2 s1 s2 s3 :
  sends h1 s1 s2 -> sends h2 s2 s3 -> sends (h1 + h2) s1 s3.
Proof.
  intros (a & Ha & Hla) (b & Hb & Hlb). exists (b ++ a)%list. split.
  - now rewrite Hb, Ha, app_assoc.
  - rewrite length_app. lia.
Qed.

Lemma sends_cons h url s s' :
  requests s' = url :: requests s -> (1 <= h)%nat -> sends h s s'.
Proof. intros H Hh. exists [url]. split; [exact H|exact Hh]. Qed.

Lemma sends_step (c k : M unit) h1 h2 st :
  (forall s, sends h1 s (snd (c s))) ->
  (forall s, sends h2 s (snd (k s))) ->
  sends (h1 + h2) st (snd ((c ;; k)%stmt st)).
Proof.
  intros Hc Hk. rewrite bind_run. specialize (Hc st).
  destruct (c st) as [[[]|e] s1]; cbn [snd] in *.
  - eapply sends_trans; [exact Hc|apply Hk].
  - eapply sends_more; [|exact Hc]. lia.
Qed.

Lemma weather_requests st :
  requests (snd (poll_openmeteo_weather E st)) = weather_url :: requests st.
Proof.
  rewrite poll_openmeteo_weather_run.
  payload_cases; frame; apply recorded_requests.
Qed.

Lemma fx_requests st :
  requests (snd (poll_fx E st)) = fx_url :: requests st.
Proof.
  rewrite poll_fx_run. payload_cases; frame; apply recorded_requests.
Qed.

Lemma crypto_requests st :
  requests (snd (poll_crypto E st)) = eth_url :: btc_url :: requests st.
Proof.
  rewrite poll_crypto_run. cbn zeta. cbn [snd]. frame.
  now rewrite !recorded_requests.
Qed.

Lemma air_sends st : sends 2 st (snd (poll_openmeteo_air E st)).
Proof.
  rewrite poll_openmeteo_air_run.
  pose proof (air_current_requests st) as Hc.
  destruct (poll_openmeteo_air_current E st) as [[[|]|e] s1]; cbn [snd] in *;
    try (eapply sends_cons; [exact Hc|lia]).
  apply (sends_trans 1 1 st s1).
  - eapply sends_cons; [exact Hc|lia].
  - eapply sends_cons; [apply air_hourly_requests|lia].
Qed.

Lemma stackoverflow_sends st : sends 1 st (snd (poll_stackoverflow E st)).
Proof.
  rewrite poll_stackoverflow_run. cbn zeta.
  destruct (gate_closed st).
  - exists []. split; [reflexivity|cbn; lia].
  - apply (sends_cons 1 so_url); [|lia].
    payload_cases; frame; now rewrite recorded_requests.
Qed.

Lemma turn_end_requests r s : requests (turn_end r s) = requests s.
Proof. unfold turn_end. now destruct r. Qed.

Lemma cycle_requests st :
  exists sent,
    requests (snd (cycle E st)) = (sent ++ weather_url :: requests st)%list /\
    (length sent <= 6)%nat.
Proof.
  rewrite cycle_run. cbn [snd]. rewrite turn_end_requests.
  unfold collectors. cbn [run_all]. rewrite bind_run.
  pose proof (weather_requests st) as Hw.
  destruct (poll_openmeteo_weather E st) as [[[]|e] s1]; cbn [snd] in *.
  - assert (H : sends (2 + (1 + (2 + (1 + 0)))) s1
                  (snd ((poll_openmeteo_air E ;; poll_fx E ;; poll_crypto E ;;
                         poll_stackoverflow E ;; ret tt)%stmt s1))).
    { apply sends_step; [apply air_sends|]. intros s2.
      apply sends_step;
        [intros s; eapply sends_cons; [apply fx_requests|lia]|]. intros s3.
      apply sends_step;
        [intros s; apply (sends_trans 1 1 s (recorded "binance" btc_url s));
         (eapply sends_cons; [|lia])|].
      - apply recorded_requests.
      - rewrite crypto_requests. now rewrite recorded_requests.
      - intros s4. apply sends_step; [apply stackoverflow_sends|].
        intros s5. apply sends_refl. }
    destruct H as (sent & Hs & Hl). exists sent. rewrite Hs, Hw.
    split; [reflexivity|cbn in Hl; lia].
  - exists []. split; [exact Hw|cbn; lia].
Qed.

Lemma loop_next n st : loop E (S n) st = loop E n (snd (cycle E st)).
Proof. cbn [loop]. now rewrite bind_run, cycle_run. Qed.

Lemma loop_last n st : loop E (S n) st = cycle E (snd (loop E n st)).
Proof.
  revert st. induction n as [|n IH]; intros st.
  - rewrite loop_next. cbn [loop]. unfold ret. cbn [snd].
    now rewrite cycle_run.
  - rewrite loop_next, IH. now rewrite <- loop_next.
Qed.

Lemma loop_returns n st : fst (loop E n st) = Ok tt.
Proof.
  destruct n as [|n]; [reflexivity|]. now rewrite loop_last, cycle_run.
Qed.

Lemma loop_requests n st :
  (n + length (requests st) <= length (requests (snd (loop E n st))))%nat.
Proof.
  induction n as [|n IH]; [cbn; lia|].
  rewrite loop_last.
  destruct (cycle_requests (snd (loop E n st))) as (sent & Hs & _).
  rewrite Hs, length_app. cbn [length]. lia.
Qed.

(** C3. A turn of the loop always ends normally, with one sleep of
    [SCRAPE_INTERVAL] = 20 seconds after whatever its collectors did.
    When a collector raises, the collectors before it have run, those
    after it are not run, and the turn ends in the state the raise
    left, plus the warning of the [except] clause and the sleep. The
    loop then goes on: its remaining turns run from the state the turn
    left, and the next turn runs its collectors, sending the weather
    request first. So every number of turns runs to its end, with as
    many sleeps; the turn after [n] turns is a whole turn run from the
    state they left, and [n] turns send at least [n] requests. *)
Theorem cycle_survives_faults st :
  (exists st',
     cycle E st = (Ok tt, st') /\
     sleeps st' = SCRAPE_INTERVAL :: sleeps st /\
     (forall (pre : list (M unit)) (c : M unit) (post : list (M unit)) s1 e s2,
        collectors = (pre ++ c :: post)%list ->
        run_all pre st = (Ok tt, s1) -> c s1 = (Raise e, s2) ->
        st' = set_sleeps (SCRAPE_INTERVAL :: sleeps s2)
                (set_log (Warn "main loop error: " e :: log s2) s2)) /\
     (forall s, run_all collectors st = (Ok tt, s) ->
        st' = set_sleeps (SCRAPE_INTERVAL :: sleeps s) s) /\
     (forall n, loop E (S n) st = loop E n st') /\
     (exists sent,
        requests (snd (cycle E st'))
        = (sent ++ weather_url :: requests st')%list)) /\
  (forall n, exists st',
     loop E n st = (Ok tt, st') /\
     sleeps st' = (repeat SCRAPE_INTERVAL n ++ sleeps st)%list /\
     loop E (S n) st = cycle E st' /\
     (n + length (requests st) <= length (requests st'))%nat).
Proof.
  split.
  - eexists. split; [apply cycle_run|]. split; [|split; [|split; [|split]]].
    + pose proof (collectors_keep_sleeps st) as Hs.
      unfold turn_end.
      destruct (run_all collectors st) as [[[]|e] s]; cbn in *; now rewrite Hs.
    + intros pre c post s1 e s2 Hcs Hpre Hc.
      rewrite Hcs, (run_all_raise pre c post st s1 e s2 Hpre Hc). reflexivity.
    + intros s Hs. now rewrite Hs.
    + intros n. now rewrite loop_next, cycle_run.
    + destruct (cycle_requests
                  (turn_end (fst (run_all collectors st))
                     (snd (run_all collectors st)))) as (sent & Hs & _).
      now exists sent.
  - intros n. exists (snd (loop E n st)).
    split; [|split; [|split]].
    + pose proof (loop_returns n st) as Hr.
      destruct (loop E n st) as [r s]. cbn [fst snd] in *. now subst r.
    + revert st. induction n as [|n IH]; intros st; [reflexivity|].
      rewrite loop_next, IH, cycle_run. cbn [snd].
      pose proof (collectors_keep_sleeps st) as Hk.
      unfold turn_end.
      destruct (run_all collectors st) as [[[]|e] s];
        cbn [fst snd sleeps set_sleeps set_log] in *; rewrite Hk;
        apply repeat_then_cons.
    + apply loop_last.
    + apply loop_requests.
Qed.

(** ** Payloads that are objects *)

Lemma unusable_error e data k : unusable (Some e) data k = Ok true.
Proof. reflexivity. Qed.

Lemma unusable_falsy err data k :
  truthy data = false -> unusable err data k = Ok true.
Proof. intros H. unfold unusable. rewrite H. now destruct (raised err). Qed.

Lemma unusable_dict_missing d k :
  dict_lookup k d = None -> unusable None (PDict d) k = Ok true.
Proof.
  intros H. unfold unusable. cbn. rewrite H.
  destruct d; reflexivity.
Qed.

Lemma unusable_dict_present d k c :
  dict_lookup k d = Some c ->
  unusable None (PDict d) k = Ok false /\ py_getitem (PDict d) k = Ok c.
Proof.
  intros H. unfold unusable. cbn. rewrite H.
  destruct d; [discriminate|]. split; reflexivity.
Qed.

Lemma payload_error_ok url st data :
  answer url st = Ok data -> payload url st = data /\ error url st = None.
Proof. intros H. unfold payload, error. now rewrite H. Qed.

Lemma payload_error_raise url st e :
  answer url st = Raise e -> error url st = Some e.
Proof. intros H. unfold error. now rewrite H. Qed.

(** ** The fallback of the air-quality collector *)

(** The first attempt falls through to the fallback, leaving [s1]. *)
Lemma air_falls_through st s1 :
  poll_openmeteo_air_current E st = (Ok false, s1) ->
  poll_openmeteo_air E st = poll_openmeteo_air_hourly E s1 /\
  requests s1 = air_url_current :: requests st /\
  requests (snd (poll_openmeteo_air E st))
  = air_url_hourly :: air_url_current :: requests st.
Proof.
  intros H. pose proof (air_current_requests st) as Hr.
  rewrite poll_openmeteo_air_run. rewrite H in *. cbn [snd] in Hr.
  split; [reflexivity|]. split; [assumption|].
  now rewrite air_hourly_requests, Hr.
Qed.

(** C6. When the current-conditions request succeeds with an object
    whose ["current"] section parses without failure, the collector
    sends that one request and no hourly request. When the request
    fails, or its payload is empty or null, or is an object without a
    ["current"] entry, or the parsing of the section fails, the
    collector sends exactly one hourly request after it; and when that
    one answers with an object whose ["hourly"] entry is an object, the
    three gauges are written, in the order pm10, pm2.5, US AQI, with
    what [_last_past_value] returns for each field that is not [None]. *)
Theorem poll_openmeteo_air_falls_back st :
  (forall d c,
     answer air_url_current st = Ok (PDict d) ->
     dict_lookup "current" d = Some c ->
     first_failure (air_fields c) = None ->
     requests (snd (poll_openmeteo_air E st)) = air_url_current :: requests st /\
     gauges (snd (poll_openmeteo_air E st))
     = apply_updates (published (air_fields c)) (gauges st)) /\
  ((exists e, answer air_url_current st = Raise e) \/
   (exists data, answer air_url_current st = Ok data /\ truthy data = false) \/
   (exists d, answer air_url_current st = Ok (PDict d) /\
              dict_lookup "current" d = None) \/
   (exists d c e, answer air_url_current st = Ok (PDict d) /\
                  dict_lookup "current" d = Some c /\
                  first_failure (air_fields c) = Some e) ->
   exists s1,
     poll_openmeteo_air E st = poll_openmeteo_air_hourly E s1 /\
     requests s1 = air_url_current :: requests st /\
     requests (snd (poll_openmeteo_air E st))
     = air_url_hourly :: air_url_current :: requests st /\
     (forall d h,
        answer air_url_hourly s1 = Ok (PDict d) ->
        dict_lookup "hourly" d = Some (PDict h) ->
        exists v_pm10 v_pm25 v_aqi sa sb sc,
          _last_past_value E (PDict h) "pm10"
            (recorded "openmeteo_air" air_url_hourly s1) = (Ok v_pm10, sa) /\
          _last_past_value E (PDict h) "pm2_5" sa = (Ok v_pm25, sb) /\
          _last_past_value E (PDict h) "us_aqi" sb = (Ok v_aqi, sc) /\
          gauges (snd (poll_openmeteo_air E st))
          = apply_updates
              (published [("air_pm10_ugm3", Ok v_pm10);
                          ("air_pm25_ugm3", Ok v_pm25);
                          ("air_us_aqi", Ok v_aqi)])
              (gauges s1))).
Proof.
  split.
  - intros d c Ha Hc Hok.
    destruct (payload_error_ok _ _ _ Ha) as [Hp He].
    destruct (unusable_dict_present d "current" c Hc) as [Hu Hg].
    rewrite poll_openmeteo_air_run, poll_openmeteo_air_current_run.
    cbn zeta. rewrite Hp, He, Hu, Hg, Hok. cbn [snd]. split.
    + frame. apply recorded_requests.
    + unfold finish. rewrite Hok. cbn [gauges set_gauges].
      now rewrite (recorded_keeps gauges).
  - intros Hfall.
    assert (Hs1 : exists s1, poll_openmeteo_air_current E st = (Ok false, s1)).
    { rewrite poll_openmeteo_air_current_run. cbn zeta.
      destruct Hfall as [[e Ha]|[(data & Ha & Hf)|[(d & Ha & Hc)|(d & c & e & Ha & Hc & Hfail)]]].
      - rewrite (payload_error_raise _ _ _ Ha). cbn. eauto.
      - destruct (payload_error_ok _ _ _ Ha) as [Hp He].
        rewrite Hp, He, (unusable_falsy None data "current" Hf). eauto.
      - destruct (payload_error_ok _ _ _ Ha) as [Hp He].
        rewrite Hp, He, (unusable_dict_missing d "current" Hc). eauto.
      - destruct (payload_error_ok _ _ _ Ha) as [Hp He].
        destruct (unusable_dict_present d "current" c Hc) as [Hu Hg].
        rewrite Hp, He, Hu, Hg, Hfail. eauto. }
    destruct Hs1 as [s1 Hs1]. exists s1.
    destruct (air_falls_through st s1 Hs1) as (Hrun & Hr1 & Hr2).
    repeat split; try assumption.
    intros d h Ha Hh.
    destruct (payload_error_ok _ _ _ Ha) as [Hp He].
    destruct (unusable_dict_present d "hourly" (PDict h) Hh) as [Hu Hg].
    set (s2 := recorded "openmeteo_air" air_url_hourly s1).
    exists (selected h "pm10" s2), (selected h "pm2_5" (ticked h "pm10" s2)),
      (selected h "us_aqi" (ticked h "pm2_5" (ticked h "pm10" s2))),
      (ticked h "pm10" s2), (ticked h "pm2_5" (ticked h "pm10" s2)),
      (hourly_read h s2).
    repeat split; try apply last_past_value_dict.
    rewrite Hrun, poll_openmeteo_air_hourly_run. cbn zeta.
    rewrite Hp, He, Hu, Hg. cbn [snd]. fold s2.
    unfold written. cbn [gauges set_gauges].
    rewrite (hourly_read_keeps gauges) by reflexivity.
    unfold s2. now rewrite (recorded_keeps gauges).
Qed.

(** ** The gauges after a collector *)

Lemma finish_gauges msg fs s :
  gauges (finish msg fs s) = apply_updates (published fs) (gauges s).
Proof. unfold finish. now destruct (first_failure fs). Qed.

Lemma finish_log msg fs s :
  log (finish msg fs s) =
  match first_failure fs with
  | Some e => Warn msg e :: log s
  | None => log s
  end.
Proof. unfold finish. now destruct (first_failure fs). Qed.

Ltac gauges_of_run :=
  cbn zeta; unfold section_writes, payload, error;
  match goal with
  | |- context [answer ?u ?s] => destruct (answer u s) as [?data|?e]
  end;
  [payload_cases; rewrite ?finish_gauges; frame; reflexivity
  |rewrite unusable_error; cbn [snd]; frame; reflexivity].

Lemma weather_gauges st :
  gauges (snd (poll_openmeteo_weather E st)) =
  apply_updates (section_writes weather_fields "current" (answer weather_url st))
    (gauges st).
Proof. rewrite poll_openmeteo_weather_run. gauges_of_run. Qed.

Lemma fx_gauges st :
  gauges (snd (poll_fx E st)) =
  apply_updates (section_writes fx_fields "rates" (answer fx_url st)) (gauges st).
Proof. rewrite poll_fx_run. gauges_of_run. Qed.

Lemma crypto_gauges st :
  gauges (snd (poll_crypto E st)) =
  apply_updates
    (published (crypto_fields (payload btc_url st)
                  (payload eth_url (recorded "binance" btc_url st))))
    (gauges st).
Proof.
  rewrite poll_crypto_run. cbn zeta. cbn [snd]. rewrite finish_gauges.
  now frame.
Qed.

Lemma air_current_gauges st :
  gauges (snd (poll_openmeteo_air_current E st)) =
  apply_updates (section_writes air_fields "current" (answer air_url_current st))
    (gauges st).
Proof. rewrite poll_openmeteo_air_current_run. gauges_of_run. Qed.

Lemma air_current_outcome st :
  fst (poll_openmeteo_air_current E st) = air_outcome (answer air_url_current st).
Proof.
  rewrite poll_openmeteo_air_current_run. cbn zeta.
  unfold air_outcome, payload, error.
  destruct (answer air_url_current st) as [data|e]; [|reflexivity].
  payload_cases; try reflexivity; now destruct (first_failure _).
Qed.

Lemma air_hourly_gauges st :
  gauges (snd (poll_openmeteo_air_hourly E st)) =
  apply_updates
    (hourly_writes (answer air_url_hourly st)
       (recorded "openmeteo_air" air_url_hourly st))
    (gauges st).
Proof.
  rewrite poll_openmeteo_air_hourly_run. cbn zeta.
  unfold hourly_writes, payload, error.
  destruct (answer air_url_hourly st) as [data|e];
    [|rewrite unusable_error; cbn [snd]; now frame].
  payload_cases; unfold written; cbn [gauges set_gauges]; now frame.
Qed.

Lemma air_gauges st :
  let s1 := snd (poll_openmeteo_air_current E st) in
  gauges (snd (poll_openmeteo_air E st)) =
  apply_updates
    (air_writes (answer air_url_current st) (answer air_url_hourly s1)
       (recorded "openmeteo_air" air_url_hourly s1))
    (gauges st).
Proof.
  cbn zeta. unfold air_writes. rewrite apply_updates_app.
  rewrite <- air_current_gauges, <- air_current_outcome.
  rewrite poll_openmeteo_air_run.
  destruct (poll_openmeteo_air_current E st) as [[[|]|e] s1]; cbn [fst snd];
    try reflexivity.
  apply air_hourly_gauges.
Qed.

Lemma stackoverflow_gauges st :
  gauges (snd (poll_stackoverflow E st)) = gauges st.
Proof.
  rewrite poll_stackoverflow_run.
  destruct (gate_closed st); [reflexivity|].
  payload_cases; now frame.
Qed.

Lemma so_parsed_tags data s :
  so_tag_count (so_parsed data s) =
  match so_items data with
  | Ok items => tags_after items (so_tag_count s)
  | Raise _ => so_tag_count s
  end.
Proof.
  unfold so_parsed. destruct (so_items data); now rewrite warned_keeps.
Qed.

Lemma stackoverflow_tags st :
  so_tag_count (snd (poll_stackoverflow E st)) =
  if gate_closed st then so_tag_count st
  else so_after (answer so_url (gate_passed st)) (so_tag_count st).
Proof.
  rewrite poll_stackoverflow_run.
  destruct (gate_closed st); [reflexivity|].
  cbn zeta. unfold so_after, payload, error.
  destruct (answer so_url (gate_passed st)) as [data|e];
    [|rewrite unusable_error; cbn [snd]; now frame].
  payload_cases; rewrite ?so_parsed_tags; now frame.
Qed.

Lemma tags_after_lookup items m k :
  tags_after items m !! k =
  match last_write (tags_published items) k with
  | Some y => Some y
  | None =>
      match m !! k with
      | Some v => Some v
      | None =>
          if decide (tags_touched items = Some k) then Some 0%float else None
      end
  end.
Proof.
  unfold tags_after.
  destruct (tags_touched items) as [t|].
  - rewrite touch_lookup, apply_updates_lookup.
    destruct (last_write (tags_published items) k); [reflexivity|].
    destruct (m !! k); [reflexivity|].
    destruct (decide (t = k)) as [->|Hne].
    + now rewrite decide_True.
    + rewrite decide_False; [reflexivity|congruence].
  - rewrite apply_updates_lookup.
    destruct (last_write (tags_published items) k); [reflexivity|].
    now destruct (m !! k).
Qed.


Lemma tags_after_keeps items m k :
  is_Some (m !! k) -> is_Some (tags_after items m !! k).
Proof.
  intros [v Hv]. rewrite tags_after_lookup, Hv.
  destruct (last_write (tags_published items) k); eauto.
Qed.


Lemma so_after_keeps r m k :
  is_Some (m !! k) -> is_Some (so_after r m !! k).
Proof.
  intros H. unfold so_after. destruct r as [data|e]; [|assumption].
  destruct (unusable None data "items") as [[|]|]; try assumption.
  destruct (so_items data); [now apply tags_after_keeps|assumption].
Qed.

(** ** Idempotence *)








(** ** Failures leave published values alone *)

Lemma field_not_none_dict d k :
  field_not_none (PDict d) k =
  match dict_lookup k d with
  | None => Ok None
  | Some v =>
      if is_none v then Ok None
      else match py_float E v with
           | Ok x => Ok (Some x)
           | Raise e => Raise e
           end
  end.
Proof.
  unfold field_not_none, res_bind. cbn.
  destruct (dict_lookup k d) as [v|]; cbn; [|reflexivity].
  destruct (is_none v); [reflexivity|]. now destruct (py_float E v).
Qed.

Lemma field_present_dict conv d k :
  field_present conv (PDict d) k =
  match dict_lookup k d with
  | None => Ok None
  | Some v =>
      match py_float E v with
      | Ok x => Ok (Some (conv x))
      | Raise e => Raise e
      end
  end.
Proof.
  unfold field_present, res_bind. cbn.
  destruct (dict_lookup k d) as [v|]; cbn; [|reflexivity].
  now destruct (py_float E v).
Qed.

Lemma price_field_dict d :
  price_field (PDict d) = field_not_none (PDict d) "price".
Proof. unfold price_field. now destruct d. Qed.

Lemma py_float_not_none v x : py_float E v = Ok x -> is_none v = false.
Proof. now destruct v. Qed.

Lemma no_gauge_removed (c : M unit) st :
  In c collectors -> forall g,
  (is_Some (gauges st !! g) -> is_Some (gauges (snd (c st)) !! g)) /\
  (is_Some (so_tag_count st !! g) -> is_Some (so_tag_count (snd (c st)) !! g)).
Proof.
  unfold collectors. cbn [In].
  intros [<-|[<-|[<-|[<-|[<-|[]]]]]] g; split; intros H.
  - rewrite weather_gauges. now apply apply_updates_keeps.
  - now rewrite weather_keeps by apply so_tag_count_untouched.
  - pose proof (air_gauges st) as Ha. cbn zeta in Ha. rewrite Ha.
    now apply apply_updates_keeps.
  - now rewrite air_keeps by apply so_tag_count_untouched.
  - rewrite fx_gauges. now apply apply_updates_keeps.
  - now rewrite fx_keeps by apply so_tag_count_untouched.
  - rewrite crypto_gauges. now apply apply_updates_keeps.
  - now rewrite crypto_keeps by apply so_tag_count_untouched.
  - now rewrite stackoverflow_gauges.
  - rewrite stackoverflow_tags. destruct (gate_closed st); [assumption|].
    now apply so_after_keeps.
Qed.

Lemma last_write_in us g y : last_write us g = Some y -> In (g, y) us.
Proof.
  induction us as [|[k x] us IH]; cbn; [discriminate|].
  destruct (last_write us g) as [z|].
  - intros [= ->]. right. now apply IH.
  - destruct (decide (k = g)) as [->|]; [|discriminate].
    intros [= ->]. now left.
Qed.

Lemma published_in fs g x :
  In (g, x) (published fs) -> In (g, Ok (Some x)) fs.
Proof.
  induction fs as [|[k [[y|]|e]] fs IH]; cbn; try tauto.
  intros [Heq|Hrest]; [injection Heq as -> ->; now left|right; now apply IH].
Qed.

Lemma apply_updates_kept us m g :
  apply_updates us m !! g = m !! g \/
  exists x, In (g, x) us /\ apply_updates us m !! g = Some x.
Proof.
  rewrite apply_updates_lookup.
  destruct (last_write us g) as [y|] eqn:Hl; [right|now left].
  exists y. split; [now apply last_write_in|reflexivity].
Qed.

Lemma section_writes_in flds k r g x :
  In (g, x) (section_writes flds k r) ->
  exists d c,
    r = Ok (PDict d) /\ dict_lookup k d = Some c /\ In (g, x) (published (flds c)).
Proof.
  unfold section_writes. destruct r as [data|e]; [|intros []].
  destruct (unusable None data k) as [[|]|e]; try (intros []).
  destruct data as [| | | | | |d]; try (intros []).
  cbn [py_getitem]. destruct (dict_lookup k d) as [c|] eqn:Hk; [|intros []].
  intros H. now exists d, c.
Qed.

Lemma hourly_writes_in r s g x :
  In (g, x) (hourly_writes r s) ->
  exists d h,
    r = Ok (PDict d) /\ dict_lookup "hourly" d = Some (PDict h) /\
    In (g, x) (published (hourly_fields h s)).
Proof.
  unfold hourly_writes. destruct r as [data|e]; [|intros []].
  destruct (unusable None data "hourly") as [[|]|e]; try (intros []).
  destruct data as [| | | | | |d]; try (intros []).
  cbn [py_getitem].
  destruct (dict_lookup "hourly" d) as [[| | | | | |h]|] eqn:Hk;
    try (intros []).
  intros H. now exists d, h.
Qed.

Lemma tags_published_in items t x :
  In (t, x) (tags_published items) ->
  exists item, In item items /\ item_field item = Ok (Some (t, Ok x)).
Proof.
  induction items as [|item rest IH]; cbn [tags_published]; [intros []|].
  destruct (item_field item) as [[[t' [y|e]]|]|e] eqn:Hi;
    try (intros Hf; exact (match Hf with end)).
  - intros [Heq|Hrest].
    + injection Heq as -> ->. exists item. split; [now left|assumption].
    + destruct (IH Hrest) as (it & Hin & Hit).
      exists it. split; [now right|assumption].
  - intros Hrest. destruct (IH Hrest) as (it & Hin & Hit).
    exists it. split; [now right|assumption].
Qed.

(** C7. When the BTC request fails and the ETH request answers with an
    object whose price converts, the crypto collector sets the ETH
    gauge to that price and leaves every other gauge, the BTC gauge
    among them, as it was. No collector ever removes the value of a
    gauge or of a tag count. A collector whose requests all fail writes
    no gauge and no tag count. After any call of a collector, with any
    answer, every gauge either has the value it had before the call or
    has the value that the call published for it from the section of
    the answer: one that [float] made of the field of that gauge, read
    before any failure of the block. A tag count either has the value
    it had, or the count that was published for that tag from an item
    of the answer; a tag that had no child may get the child that
    [labels] makes, with value 0. *)
Theorem failed_fetch_keeps_values st :
  (forall e d v x,
     answer btc_url st = Raise e ->
     answer eth_url (recorded "binance" btc_url st) = Ok (PDict d) ->
     dict_lookup "price" d = Some v -> py_float E v = Ok x ->
     gauges (snd (poll_crypto E st)) = <["crypto_eth_usd" := x]> (gauges st) /\
     gauges (snd (poll_crypto E st)) !! "crypto_eth_usd" = Some x /\
     gauges (snd (poll_crypto E st)) !! "crypto_btc_usd"
     = gauges st !! "crypto_btc_usd") /\
  (forall c : M unit, In c collectors -> forall g,
     (is_Some (gauges st !! g) -> is_Some (gauges (snd (c st)) !! g)) /\
     (is_Some (so_tag_count st !! g) ->
      is_Some (so_tag_count (snd (c st)) !! g))) /\
  (forall e, answer weather_url st = Raise e ->
     gauges (snd (poll_openmeteo_weather E st)) = gauges st) /\
  (forall e1 e2,
     answer air_url_current st = Raise e1 ->
     answer air_url_hourly (recorded "openmeteo_air" air_url_current st)
     = Raise e2 ->
     gauges (snd (poll_openmeteo_air E st)) = gauges st) /\
  (forall e, answer fx_url st = Raise e ->
     gauges (snd (poll_fx E st)) = gauges st) /\
  (forall e1 e2,
     answer btc_url st = Raise e1 ->
     answer eth_url (recorded "binance" btc_url st) = Raise e2 ->
     gauges (snd (poll_crypto E st)) = gauges st) /\
  (forall e, answer so_url (gate_passed st) = Raise e ->
     so_tag_count (snd (poll_stackoverflow E st)) = so_tag_count st) /\
  (forall g,
     gauges (snd (poll_openmeteo_weather E st)) !! g = gauges st !! g \/
     exists d c x,
       answer weather_url st = Ok (PDict d) /\
       dict_lookup "current" d = Some c /\
       In (g, x) (published (weather_fields c)) /\
       gauges (snd (poll_openmeteo_weather E st)) !! g = Some x) /\
  (forall g,
     gauges (snd (poll_fx E st)) !! g = gauges st !! g \/
     exists d rates x,
       answer fx_url st = Ok (PDict d) /\
       dict_lookup "rates" d = Some rates /\
       In (g, x) (published (fx_fields rates)) /\
       gauges (snd (poll_fx E st)) !! g = Some x) /\
  (forall g,
     gauges (snd (poll_crypto E st)) !! g = gauges st !! g \/
     exists x,
       In (g, x)
         (published (crypto_fields (payload btc_url st)
                       (payload eth_url (recorded "binance" btc_url st)))) /\
       gauges (snd (poll_crypto E st)) !! g = Some x) /\
  (forall g,
     let s1 := snd (poll_openmeteo_air_current E st) in
     gauges (snd (poll_openmeteo_air E st)) !! g = gauges st !! g \/
     (exists d c x,
        answer air_url_current st = Ok (PDict d) /\
        dict_lookup "current" d = Some c /\
        In (g, x) (published (air_fields c)) /\
        gauges (snd (poll_openmeteo_air E st)) !! g = Some x) \/
     (exists d h x,
        answer air_url_hourly s1 = Ok (PDict d) /\
        dict_lookup "hourly" d = Some (PDict h) /\
        In (g, x)
          (published
             (hourly_fields h (recorded "openmeteo_air" air_url_hourly s1))) /\
        gauges (snd (poll_openmeteo_air E st)) !! g = Some x)) /\
  (forall t,
     so_tag_count (snd (poll_stackoverflow E st)) !! t = so_tag_count st !! t \/
     (so_tag_count st !! t = None /\
      so_tag_count (snd (poll_stackoverflow E st)) !! t = Some 0%float) \/
     exists data items item x,
       answer so_url (gate_passed st) = Ok data /\
       so_items data = Ok items /\
       In item items /\ item_field item = Ok (Some (t, Ok x)) /\
       so_tag_count (snd (poll_stackoverflow E st)) !! t = Some x) /\
  (forall fs g x, In (g, x) (published fs) -> In (g, Ok (Some x)) fs) /\
  (forall g, gauges (snd (poll_stackoverflow E st)) !! g = gauges st !! g).
Proof.
  split; [|split; [|split; [|split; [|split; [|split]]]]].
  - intros e d v x Hb He Hv Hx.
    assert (Hg : gauges (snd (poll_crypto E st))
                 = <["crypto_eth_usd" := x]> (gauges st)).
    { rewrite crypto_gauges. unfold payload. rewrite Hb, He.
      unfold crypto_fields. rewrite price_field_dict, field_not_none_dict.
      rewrite Hv, (py_float_not_none v x Hx), Hx. reflexivity. }
    rewrite Hg. split; [reflexivity|]. split.
    + apply lookup_insert_eq.
    + now apply lookup_insert_ne.
  - intros c Hc. now apply no_gauge_removed.
  - intros e Ha. rewrite weather_gauges, Ha. reflexivity.
  - intros e1 e2 H1 H2.
    pose proof (air_gauges st) as Ha. cbn zeta in Ha. rewrite Ha.
    assert (Hs : snd (poll_openmeteo_air_current E st)
                 = recorded "openmeteo_air" air_url_current st).
    { rewrite poll_openmeteo_air_current_run. cbn zeta.
      now rewrite (payload_error_raise _ _ _ H1). }
    rewrite Hs, H1, H2. reflexivity.
  - intros e Ha. rewrite fx_gauges, Ha. reflexivity.
  - intros e1 e2 H1 H2. rewrite crypto_gauges. unfold payload.
    rewrite H1, H2. reflexivity.
  - split; [|split; [|split; [|split; [|split; [|split; [|split]]]]]].
    + intros e Ha. rewrite stackoverflow_tags, Ha.
      now destruct (gate_closed st).
    + intros g. rewrite weather_gauges.
      destruct (apply_updates_kept
                  (section_writes weather_fields "current"
                     (answer weather_url st)) (gauges st) g)
        as [H|(x & Hin & Hx)]; [now left|right].
      destruct (section_writes_in _ _ _ _ _ Hin) as (d & c & Hr & Hc & Hp).
      now exists d, c, x.
    + intros g. rewrite fx_gauges.
      destruct (apply_updates_kept
                  (section_writes fx_fields "rates" (answer fx_url st))
                  (gauges st) g)
        as [H|(x & Hin & Hx)]; [now left|right].
      destruct (section_writes_in _ _ _ _ _ Hin) as (d & c & Hr & Hc & Hp).
      now exists d, c, x.
    + intros g. rewrite crypto_gauges. apply apply_updates_kept.
    + intros g. cbn zeta.
      pose proof (air_gauges st) as Ha. cbn zeta in Ha. rewrite Ha.
      match goal with
      | |- context [apply_updates ?us ?m] =>
          destruct (apply_updates_kept us m g) as [H|(x & Hin & Hx)]
      end; [now left|right].
      unfold air_writes in Hin. apply in_app_or in Hin.
      destruct Hin as [Hin|Hin].
      * left. destruct (section_writes_in _ _ _ _ _ Hin)
          as (d & c & Hr & Hc & Hp).
        now exists d, c, x.
      * right. destruct (air_outcome _) as [[|]|e]; try now destruct Hin.
        destruct (hourly_writes_in _ _ _ _ Hin) as (d & h & Hr & Hc & Hp).
        now exists d, h, x.
    + intros t. rewrite stackoverflow_tags.
      destruct (gate_closed st); [now left|].
      unfold so_after.
      destruct (answer so_url (gate_passed st)) as [data|e] eqn:Ha;
        [|now left].
      destruct (unusable None data "items") as [[|]|e]; try now left.
      destruct (so_items data) as [items|e] eqn:Hitems; [|now left].
      rewrite tags_after_lookup.
      destruct (last_write (tags_published items) t) as [y|] eqn:Hl.
      * right. right. apply last_write_in in Hl.
        destruct (tags_published_in _ _ _ Hl) as (item & Hin & Hit).
        now exists data, items, item, y.
      * destruct (so_tag_count st !! t) as [v|]; [now left|].
        destruct (decide (tags_touched items = Some t)); [|now left].
        right. left. now split.
    + apply published_in.
    + intros g. now rewrite stackoverflow_gauges.
Qed.



(** * Further properties of the code *)

(** ** Every request is counted once *)

Lemma total_inc (m : gmap string nat) k :
  total (<[k := S (default 0%nat (m !! k))]> m) = S (total m).
Proof.
  unfold total.
  assert (Hcomm : forall (m' : gmap string nat) (j1 j2 : string) (z1 z2 y : nat),
            j1 <> j2 -> m' !! j1 = Some z1 -> m' !! j2 = Some z2 ->
            (z1 + (z2 + y) = z2 + (z1 + y))%nat) by (intros; lia).
  destruct (m !! k) as [v|] eqn:Hk; cbn [default].
  - rewrite <- (insert_delete_eq m k (S v)).
    rewrite map_fold_insert_L; [|apply Hcomm|apply lookup_delete_eq].
    rewrite (map_fold_delete_L _ 0%nat k v m); [|apply Hcomm|assumption].
    reflexivity.
  - rewrite map_fold_insert_L; [reflexivity|apply Hcomm|assumption].
Qed.

Lemma surplus_after_fetch api url s :
  surplus (after_fetch api url s) = surplus s.
Proof.
  unfold surplus, tally, after_fetch, counter_value. cbn zeta.
  destruct (fetch_result _); cbn [api_success_total api_fail_total requests
    set_ticks set_requests set_api_success_total set_api_fail_total length];
    rewrite total_inc; lia.
Qed.

Lemma surplus_recorded api url s : surplus (recorded api url s) = surplus s.
Proof.
  rewrite <- (surplus_after_fetch api url s). reflexivity.
Qed.

Ltac surplus_steps :=
  payload_cases; frame_at surplus; rewrite ?surplus_recorded; reflexivity.

Lemma weather_surplus st :
  surplus (snd (poll_openmeteo_weather E st)) = surplus st.
Proof. rewrite poll_openmeteo_weather_run. surplus_steps. Qed.

Lemma air_current_surplus st :
  surplus (snd (poll_openmeteo_air_current E st)) = surplus st.
Proof. rewrite poll_openmeteo_air_current_run. surplus_steps. Qed.

Lemma air_hourly_surplus st :
  surplus (snd (poll_openmeteo_air_hourly E st)) = surplus st.
Proof. rewrite poll_openmeteo_air_hourly_run. surplus_steps. Qed.

Lemma air_surplus st : surplus (snd (poll_openmeteo_air E st)) = surplus st.
Proof.
  rewrite poll_openmeteo_air_run.
  pose proof (air_current_surplus st) as Hc.
  destruct (poll_openmeteo_air_current E st) as [[[|]|e] s]; cbn [snd] in *;
    try assumption.
  now rewrite air_hourly_surplus.
Qed.

Lemma fx_surplus st : surplus (snd (poll_fx E st)) = surplus st.
Proof. rewrite poll_fx_run. surplus_steps. Qed.

Lemma crypto_surplus st : surplus (snd (poll_crypto E st)) = surplus st.
Proof.
  rewrite poll_crypto_run. cbn zeta. cbn [snd]. frame_at surplus.
  now rewrite !surplus_recorded.
Qed.

Lemma stackoverflow_surplus st :
  surplus (snd (poll_stackoverflow E st)) = surplus st.
Proof.
  rewrite poll_stackoverflow_run.
  destruct (gate_closed st); [reflexivity|].
  payload_cases; frame_at surplus; now rewrite surplus_recorded.
Qed.

Lemma cycle_surplus st : surplus (snd (cycle E st)) = surplus st.
Proof.
  rewrite cycle_run. cbn [snd].
  assert (H : surplus (snd (run_all collectors st)) = surplus st).
  { apply run_all_keeps. unfold collectors.
    repeat apply Forall_cons_2; try apply Forall_nil_2; intros s.
    - apply weather_surplus.
    - apply air_surplus.
    - apply fx_surplus.
    - apply crypto_surplus.
    - apply stackoverflow_surplus. }
  unfold turn_end. now destruct (fst (run_all collectors st)).
Qed.

(** X1. The success and failure counters, all sources together, go up
    by exactly the number of requests the loop sends: after any number
    of turns from the initial state, the requests counted are the
    requests sent. *)
Theorem loop_counts_every_request n st :
  surplus (snd (loop E n st)) = surplus st /\
  tally (snd (loop E n initial_state))
  = length (requests (snd (loop E n initial_state))).
Proof.
  assert (H : forall s, surplus (snd (loop E n s)) = surplus s).
  { induction n as [|n IH]; intros s; [reflexivity|].
    cbn [loop]. rewrite bind_run.
    pose proof (cycle_surplus s) as Hc.
    destruct (cycle E s) as [[[]|e] s1]; cbn [snd] in *.
    - now rewrite IH.
    - assumption. }
  split; [apply H|].
  specialize (H initial_state).
  assert (Hi : surplus initial_state = 0).
  { unfold surplus, tally, total, initial_state.
    cbn [api_success_total api_fail_total requests length].
    now rewrite map_fold_empty. }
  rewrite Hi in H. unfold surplus in H. lia.
Qed.

(** ** What reaches the [except] clause of the loop *)

Lemma unusable_object err data k :
  data = PNone \/ (exists d, data = PDict d) ->
  unusable err data k = Ok true \/
  (unusable err data k = Ok false /\ exists c, py_getitem data k = Ok c).
Proof.
  intros [->|[d ->]].
  - left. now apply unusable_falsy.
  - destruct err as [e|]; [left; reflexivity|].
    destruct (dict_lookup k d) as [c|] eqn:Hk.
    + right. destruct (unusable_dict_present d k c Hk) as [Hu Hg]. eauto.
    + left. now apply unusable_dict_missing.
Qed.

Lemma payload_object url st :
  object_payloads -> payload url st = PNone \/ exists d, payload url st = PDict d.
Proof.
  intros H. unfold payload, answer.
  destruct (fetch_result (http E (length (requests st)) url)) as [v|e] eqn:Hf.
  - exact (H _ _ _ Hf).
  - now left.
Qed.

Ltac object_cases H url st k :=
  destruct (unusable_object (error url st) (payload url st) k
              (payload_object url st H)) as [->|[-> [?c ->]]].

Lemma weather_returns st :
  object_payloads -> fst (poll_openmeteo_weather E st) = Ok tt.
Proof.
  intros H. rewrite poll_openmeteo_weather_run. cbn zeta.
  object_cases H weather_url st "current"; reflexivity.
Qed.

Lemma air_current_returns st :
  object_payloads -> exists b, fst (poll_openmeteo_air_current E st) = Ok b.
Proof.
  intros H. rewrite poll_openmeteo_air_current_run. cbn zeta.
  object_cases H air_url_current st "current"; cbn [fst]; eauto.
  destruct (first_failure _); eauto.
Qed.

Lemma air_hourly_returns st :
  object_payloads -> fst (poll_openmeteo_air_hourly E st) = Ok tt.
Proof.
  intros H. rewrite poll_openmeteo_air_hourly_run. cbn zeta.
  object_cases H air_url_hourly st "hourly"; [reflexivity|].
  now destruct c.
Qed.

Lemma air_returns st :
  object_payloads -> fst (poll_openmeteo_air E st) = Ok tt.
Proof.
  intros H. rewrite poll_openmeteo_air_run.
  destruct (air_current_returns st H) as [b Hb].
  destruct (poll_openmeteo_air_current E st) as [r s]. cbn [fst] in Hb. subst r.
  destruct b; [reflexivity|]. now apply air_hourly_returns.
Qed.

Lemma fx_returns st : object_payloads -> fst (poll_fx E st) = Ok tt.
Proof.
  intros H. rewrite poll_fx_run. cbn zeta.
  object_cases H fx_url st "rates"; reflexivity.
Qed.

Lemma stackoverflow_returns st :
  object_payloads -> fst (poll_stackoverflow E st) = Ok tt.
Proof.
  intros H. rewrite poll_stackoverflow_run.
  destruct (gate_closed st); [reflexivity|]. cbn zeta.
  destruct (unusable_object (error so_url (gate_passed st))
              (payload so_url (gate_passed st)) "items"
              (payload_object so_url (gate_passed st) H)) as [->|[-> _]];
    reflexivity.
Qed.

Lemma run_all_returns (cs : list (M unit)) st :
  Forall (fun c : M unit => forall s, fst (c s) = Ok tt) cs ->
  fst (run_all cs st) = Ok tt.
Proof.
  intros H. revert st. induction H as [|c cs Hc _ IH]; intros st.
  - reflexivity.
  - cbn [run_all]. rewrite bind_run. specialize (Hc st).
    destruct (c st) as [r s]. cbn [fst] in Hc. subst r. apply IH.
Qed.

(** X2. When every decoded payload is [None] or an object, no
    collector raises: a turn runs its five collectors to the end and
    logs no main-loop error, with any content inside the objects. *)
Theorem object_payloads_never_fault st :
  object_payloads ->
  (forall c : M unit, In c collectors -> fst (c st) = Ok tt) /\
  exists s,
    run_all collectors st = (Ok tt, s) /\
    cycle E st = (Ok tt, set_sleeps (SCRAPE_INTERVAL :: sleeps s) s).
Proof.
  intros H.
  assert (Hall : Forall (fun c : M unit => forall s, fst (c s) = Ok tt)
                   collectors).
  { unfold collectors.
    repeat apply Forall_cons_2; try apply Forall_nil_2; intros s.
    - now apply weather_returns.
    - now apply air_returns.
    - now apply fx_returns.
    - now rewrite poll_crypto_run.
    - now apply stackoverflow_returns. }
  split.
  - intros c Hc. exact (proj1 (List.Forall_forall _ _) Hall c Hc st).
  - pose proof (run_all_returns collectors st Hall) as Hr.
    exists (snd (run_all collectors st)). rewrite cycle_run.
    destruct (run_all collectors st) as [r s]. cbn [fst snd] in *. subst r.
    split; reflexivity.
Qed.

Lemma escape_is_type_error err data k e :
  (unusable err data k = Raise e -> e = TypeError) /\
  (unusable err data k = Ok false -> py_getitem data k = Raise e ->
   e = TypeError).
Proof.
  unfold unusable.
  destruct (raised err || negb (truthy data)); [split; discriminate|].
  destruct data as [| | | | | |d]; cbn; split; try congruence.
  destruct (dict_lookup k d); cbn; congruence.
Qed.

Lemma weather_escape st e s :
  poll_openmeteo_weather E st = (Raise e, s) -> e = TypeError.
Proof.
  intros Hr. rewrite poll_openmeteo_weather_run in Hr. cbn zeta in Hr.
  destruct (escape_is_type_error (error weather_url st)
              (payload weather_url st) "current" e) as [Hu Hg].
  destruct (unusable _ _ _) as [[|]|e0]; [discriminate| |].
  - destruct (py_getitem _ _) as [c|e1]; [discriminate|].
    injection Hr as -> _. now apply Hg.
  - injection Hr as -> _. now apply Hu.
Qed.

Lemma air_current_escape st e s :
  poll_openmeteo_air_current E st = (Raise e, s) -> e = TypeError.
Proof.
  intros Hr. rewrite poll_openmeteo_air_current_run in Hr. cbn zeta in Hr.
  destruct (escape_is_type_error (error air_url_current st)
              (payload air_url_current st) "current" e) as [Hu Hg].
  destruct (unusable _ _ _) as [[|]|e0]; [discriminate| |].
  - destruct (py_getitem _ _) as [c|e1].
    + now destruct (first_failure _).
    + injection Hr as -> _. now apply Hg.
  - injection Hr as -> _. now apply Hu.
Qed.

Lemma air_hourly_escape st e s :
  poll_openmeteo_air_hourly E st = (Raise e, s) -> e = TypeError.
Proof.
  intros Hr. rewrite poll_openmeteo_air_hourly_run in Hr. cbn zeta in Hr.
  destruct (escape_is_type_error (error air_url_hourly st)
              (payload air_url_hourly st) "hourly" e) as [Hu Hg].
  destruct (unusable _ _ _) as [[|]|e0]; [discriminate| |].
  - destruct (py_getitem _ _) as [c|e1].
    + now destruct c.
    + injection Hr as -> _. now apply Hg.
  - injection Hr as -> _. now apply Hu.
Qed.

Lemma air_escape st e s :
  poll_openmeteo_air E st = (Raise e, s) -> e = TypeError.
Proof.
  rewrite poll_openmeteo_air_run.
  destruct (poll_openmeteo_air_current E st) as [[[|]|e0] s0] eqn:Hc.
  - discriminate.
  - apply air_hourly_escape.
  - intros [= <- <-]. now apply (air_current_escape st e0 s0).
Qed.

Lemma fx_escape st e s : poll_fx E st = (Raise e, s) -> e = TypeError.
Proof.
  intros Hr. rewrite poll_fx_run in Hr. cbn zeta in Hr.
  destruct (escape_is_type_error (error fx_url st)
              (payload fx_url st) "rates" e) as [Hu _].
  destruct (unusable _ _ _) as [[|]|e0]; [discriminate| |].
  - now destruct (py_getitem _ _).
  - injection Hr as -> _. now apply Hu.
Qed.

Lemma stackoverflow_escape st e s :
  poll_stackoverflow E st = (Raise e, s) -> e = TypeError.
Proof.
  intros Hr. rewrite poll_stackoverflow_run in Hr.
  destruct (gate_closed st); [discriminate|]. cbn zeta in Hr.
  destruct (escape_is_type_error (error so_url (gate_passed st))
              (payload so_url (gate_passed st)) "items" e) as [Hu _].
  destruct (unusable _ _ _) as [[|]|e0]; try discriminate.
  injection Hr as -> _. now apply Hu.
Qed.

(** X3. The only exception a collector lets through to the loop is a
    [TypeError], raised by a membership test or a subscript on a payload
    that is not an object; whatever the parsing of a section raises ends
    in a warning of the collector. The crypto collector lets none
    through. *)
Theorem only_type_errors_escape (c : M unit) st e s :
  In c collectors -> c st = (Raise e, s) ->
  e = TypeError /\ forall s', fst (poll_crypto E s') = Ok tt.
Proof.
  intros Hc Hr. split; [|intros s'; now rewrite poll_crypto_run].
  revert Hc Hr. unfold collectors. cbn [In].
  intros [<-|[<-|[<-|[<-|[<-|[]]]]]] Hr.
  - now apply (weather_escape st e s).
  - now apply (air_escape st e s).
  - now apply (fx_escape st e s).
  - rewrite poll_crypto_run in Hr. discriminate.
  - now apply (stackoverflow_escape st e s).
Qed.

(** ** The requests of the loop *)

(** X4. A turn of the loop sends at least one request and at most
    seven, the first of them to the weather source, and forgets none of
    the requests sent before; so [n] turns from the initial state send
    between [n] and [7 n] requests. *)
Theorem turn_sends_one_to_seven st n :
  (exists sent,
     requests (snd (cycle E st)) = (sent ++ requests st)%list /\
     (1 <= length sent <= 7)%nat /\ last sent = Some weather_url) /\
  (n <= length (requests (snd (loop E n initial_state))) <= 7 * n)%nat.
Proof.
  split.
  - destruct (cycle_requests st) as (sent & Hs & Hl).
    exists (sent ++ [weather_url])%list. rewrite Hs, <- app_assoc.
    split; [reflexivity|]. rewrite length_app, last_snoc. cbn. split; [lia|].
    reflexivity.
  - assert (H : forall s,
               (n + length (requests s)
                <= length (requests (snd (loop E n s)))
                <= 7 * n + length (requests s))%nat).
    { induction n as [|n IH]; intros s; [cbn; lia|].
      cbn [loop]. rewrite bind_run.
      destruct (cycle_requests s) as (sent & Hs & Hl).
      pose proof (cycle_run s) as Hr.
      destruct (cycle E s) as [r s1]. injection Hr as -> Hs1.
      cbn [snd] in Hs. specialize (IH s1). rewrite Hs in IH.
      rewrite length_app in IH. cbn [length] in IH. lia. }
    specialize (H initial_state). cbn [initial_state requests length] in H. lia.
Qed.

(** ** The gauges a collector writes *)

Lemma last_write_published fs g :
  ~ In g (map fst fs) -> last_write (published fs) g = None.
Proof.
  induction fs as [|[k [[x|]|e]] fs IH]; cbn; intros H; try reflexivity.
  - rewrite IH by tauto. destruct (decide (k = g)); [tauto|reflexivity].
  - apply IH. tauto.
Qed.

Lemma last_write_app us vs g :
  last_write (us ++ vs) g =
  match last_write vs g with
  | Some y => Some y
  | None => last_write us g
  end.
Proof.
  induction us as [|[k x] us IH]; cbn.
  - now destruct (last_write vs g).
  - rewrite IH. now destruct (last_write vs g).
Qed.

Lemma section_writes_outside flds k names r g :
  (forall c, map fst (flds c) = names) -> ~ In g names ->
  last_write (section_writes flds k r) g = None.
Proof.
  intros Hn Hg. unfold section_writes.
  destruct r as [data|e]; [|reflexivity].
  destruct (unusable None data k) as [[|]|e]; try reflexivity.
  destruct (py_getitem data k) as [c|e]; [|reflexivity].
  apply last_write_published. now rewrite Hn.
Qed.

Lemma hourly_writes_outside r s g :
  ~ In g air_names -> last_write (hourly_writes r s) g = None.
Proof.
  intros Hg. unfold hourly_writes.
  destruct r as [data|e]; [|reflexivity].
  destruct (unusable None data "hourly") as [[|]|e]; try reflexivity.
  destruct (py_getitem data "hourly") as [[| | | | | |h]|e]; try reflexivity.
  now apply last_write_published.
Qed.

Lemma own_gauges_only (c : M unit) names st g :
  In (c, names) own_gauges -> ~ In g names ->
  gauges (snd (c st)) !! g = gauges st !! g.
Proof.
  unfold own_gauges. cbn [In].
  intros [H|[H|[H|[H|[H|[]]]]]] Hg; injection H as <- <-.
  - rewrite weather_gauges, apply_updates_lookup.
    now rewrite (section_writes_outside _ _ weather_names).
  - pose proof (air_gauges st) as Ha. cbn zeta in Ha.
    rewrite Ha, apply_updates_lookup. unfold air_writes.
    rewrite last_write_app.
    rewrite (section_writes_outside _ _ air_names) by easy.
    destruct (air_outcome _) as [[|]|e]; try reflexivity.
    now rewrite hourly_writes_outside.
  - rewrite fx_gauges, apply_updates_lookup.
    now rewrite (section_writes_outside _ _ fx_names).
  - rewrite crypto_gauges, apply_updates_lookup.
    now rewrite last_write_published.
  - now rewrite stackoverflow_gauges.
Qed.

(** X5. A collector writes no gauge but those it names: the three
    weather gauges, the three air-quality gauges, the two rates, the
    two prices, and none for the collector of the tag statistics.
    Every other gauge has after the call the value it had before,
    whatever the payload was and however the call ended. *)
Theorem collector_writes_own_gauges (c : M unit) names st g :
  In (c, names) own_gauges -> ~ In g names ->
  gauges (snd (c st)) !! g = gauges st !! g.
Proof. apply own_gauges_only. Qed.

(** ** What the loop keeps *)

Lemma kept_refl s : kept s s.
Proof. intros g. tauto. Qed.

Lemma kept_trans s1 s2 s3 : kept s1 s2 -> kept s2 s3 -> kept s1 s3.
Proof.
  intros H1 H2 g. destruct (H1 g) as (Ha & Hb & Hc).
  destruct (H2 g) as (Ha' & Hb' & Hc').
  split; [tauto|]. split; [tauto|]. intros Hg. now rewrite Hc', Hc.
Qed.

Lemma names_outside g names :
  In names [weather_names; air_names; fx_names; crypto_names; []] ->
  ~ In g gauge_names -> ~ In g names.
Proof.
  unfold gauge_names. rewrite !in_app_iff. cbn [In].
  intros [<-|[<-|[<-|[<-|[<-|[]]]]]]; tauto.
Qed.

Lemma collector_kept (c : M unit) st : In c collectors -> kept st (snd (c st)).
Proof.
  intros Hc g. destruct (no_gauge_removed c st Hc g) as [Ha Hb].
  split; [exact Ha|]. split; [exact Hb|]. intros Hg.
  revert Hc. unfold collectors. cbn [In].
  intros [<-|[<-|[<-|[<-|[<-|[]]]]]].
  - apply (own_gauges_only _ weather_names); [cbn; tauto|].
    apply names_outside; [cbn; tauto|exact Hg].
  - apply (own_gauges_only _ air_names); [cbn; tauto|].
    apply names_outside; [cbn; tauto|exact Hg].
  - apply (own_gauges_only _ fx_names); [cbn; tauto|].
    apply names_outside; [cbn; tauto|exact Hg].
  - apply (own_gauges_only _ crypto_names); [cbn; tauto|].
    apply names_outside; [cbn; tauto|exact Hg].
  - apply (own_gauges_only _ []); [cbn; tauto|]. cbn. tauto.
Qed.

Lemma run_all_kept (cs : list (M unit)) st :
  Forall (fun c : M unit => forall s, kept s (snd (c s))) cs ->
  kept st (snd (run_all cs st)).
Proof.
  intros H. revert st. induction H as [|c cs Hc _ IH]; intros st.
  - apply kept_refl.
  - cbn [run_all]. rewrite bind_run. specialize (Hc st).
    destruct (c st) as [[[]|e] s]; cbn [snd] in *.
    + eapply kept_trans; [exact Hc|apply IH].
    + exact Hc.
Qed.

Lemma cycle_kept st : kept st (snd (cycle E st)).
Proof.
  rewrite cycle_run. cbn [snd].
  apply (kept_trans _ (snd (run_all collectors st))).
  - apply run_all_kept. apply List.Forall_forall.
    intros c Hc s. now apply collector_kept.
  - unfold turn_end.
    destruct (fst (run_all collectors st)); intros g; cbn; tauto.
Qed.

(** X6. The loop never takes a value away: after any number of turns,
    with any answers and any faults, every gauge and every tag count
    that had a value still has one, and a gauge that no collector names
    (the two GitHub gauges, for one) has the value it started with. *)
Theorem loop_keeps_values n st g :
  (is_Some (gauges st !! g) ->
   is_Some (gauges (snd (loop E n st)) !! g)) /\
  (is_Some (so_tag_count st !! g) ->
   is_Some (so_tag_count (snd (loop E n st)) !! g)) /\
  (~ In g gauge_names ->
   gauges (snd (loop E n st)) !! g = gauges st !! g).
Proof.
  assert (H : kept st (snd (loop E n st))); [|exact (H g)].
  revert st. induction n as [|n IH]; intros st; [apply kept_refl|].
  cbn [loop]. rewrite bind_run.
  pose proof (cycle_kept st) as Hc. pose proof (cycle_run st) as Hr.
  destruct (cycle E st) as [r s1]. injection Hr as -> _. cbn [snd] in Hc.
  eapply kept_trans; [exact Hc|apply IH].
Qed.

(** ** The selector of the fallback *)

(** X7. [_parse_iso_ts] returns an aware datetime in UTC that denotes
    the instant [fromisoformat] read, with or without an offset in the
    text. It returns [None] in three cases and in no other: the
    argument is not a [str], the text does not parse, or the text has
    an offset and the conversion to UTC leaves the range of
    [datetime]. *)
Theorem parse_iso_ts_is_utc ts :
  (forall u,
     _parse_iso_ts E ts = Some u ->
     tzinfo u = Some 0 /\
     exists s dt,
       ts = PStr s /\ fromisoformat E (replace_Z s) = Some dt /\
       instant u = instant dt) /\
  (_parse_iso_ts E ts = None <->
   (forall s, ts <> PStr s) \/
   exists s,
     ts = PStr s /\
     (fromisoformat E (replace_Z s) = None \/
      exists dt off,
        fromisoformat E (replace_Z s) = Some dt /\ tzinfo dt = Some off /\
        (wall dt - off < 0 \/ MAX_WALL < wall dt - off))) /\
  (forall s dt,
     ts = PStr s -> fromisoformat E (replace_Z s) = Some dt ->
     0 <= instant dt <= MAX_WALL \/ tzinfo dt = None ->
     _parse_iso_ts E ts = Some {| wall := instant dt; tzinfo := Some 0 |}).
Proof.
  unfold _parse_iso_ts, str_replace_Z, datetime_fromisoformat, res_bind.
  destruct ts as [| | | |s| |];
    try (split; [discriminate|split; [split; [left; congruence|reflexivity]
                                     |discriminate]]).
  destruct (fromisoformat E (replace_Z s)) as [[w [off|]]|] eqn:Hf;
    cbn [tzinfo].
  - unfold astimezone_utc, instant.
    cbn [wall tzinfo default from_option id].
    destruct ((0 <=? w - off) && (w - off <=? MAX_WALL)) eqn:Hr;
      cbn beta iota.
    + apply andb_true_iff in Hr. split; [|split].
      * intros u [= <-]. split; [reflexivity|].
        exists s, {| wall := w; tzinfo := Some off |}.
        split; [reflexivity|split; [exact Hf|]]. cbn. lia.
      * split; [discriminate|].
        intros [Hn|(s' & [= <-] & [Hn|(dt & off' & Hdt & Htz & Hout)])].
        -- now destruct (Hn s).
        -- congruence.
        -- rewrite Hf in Hdt. injection Hdt as <-. cbn in Htz, Hout.
           injection Htz as <-. lia.
      * intros s' dt [= <-] Hdt _. rewrite Hf in Hdt. now injection Hdt as <-.
    + apply andb_false_iff in Hr. split; [discriminate|split].
      * split; [|reflexivity]. intros _. right. exists s.
        split; [reflexivity|]. right.
        exists {| wall := w; tzinfo := Some off |}, off.
        split; [exact Hf|split; [reflexivity|]]. cbn [wall]. lia.
      * intros s' dt [= <-] Hdt Hin. rewrite Hf in Hdt. injection Hdt as <-.
        cbn in Hin. destruct Hin as [Hin|Hin]; [lia|discriminate].
  - cbn beta iota. split; [|split].
    + intros u [= <-]. split; [reflexivity|].
      exists s, {| wall := w; tzinfo := None |}.
      split; [reflexivity|split; [exact Hf|reflexivity]].
    + split; [discriminate|].
      intros [Hn|(s' & [= <-] & [Hn|(dt & off' & Hdt & Htz & _)])].
      * now destruct (Hn s).
      * congruence.
      * rewrite Hf in Hdt. injection Hdt as <-. discriminate.
    + intros s' dt [= <-] Hdt _. rewrite Hf in Hdt. injection Hdt as <-.
      unfold replace_tz_utc, instant. cbn. now rewrite Z.sub_0_r.
  - cbn beta iota. split; [discriminate|split].
    + split; [|reflexivity]. intros _. right. exists s.
      split; [reflexivity|]. now left.
    + intros s' dt [= <-] Hdt. congruence.
Qed.

Lemma scan_back_sound now ts vs n x :
  scan_back E now ts vs n = Ok (Some x) ->
  exists i t v,
    (i < n)%nat /\ ts !! i = Some t /\ vs !! i = Some v /\
    past now t = true /\ py_float E v = Ok x /\
    forall j t', (i < j < n)%nat -> ts !! j = Some t' ->
      past now t' = false \/ vs !! j = Some PNone.
Proof.
  induction n as [|n IH]; [discriminate|]. cbn [scan_back].
  destruct (ts !! n) as [t|] eqn:Ht; [|discriminate].
  assert (Hnext : scan_back E now ts vs n = Ok (Some x) ->
                  past now t = false \/ vs !! n = Some PNone ->
                  exists i t0 v,
                    (i < S n)%nat /\ ts !! i = Some t0 /\ vs !! i = Some v /\
                    past now t0 = true /\ py_float E v = Ok x /\
                    forall j t', (i < j < S n)%nat -> ts !! j = Some t' ->
                      past now t' = false \/ vs !! j = Some PNone).
  { intros H Hn. destruct (IH H) as (i & t0 & v & Hi & Ht0 & Hv & Hp & Hx & Hs).
    exists i, t0, v. repeat split; try assumption; [lia|].
    intros j t' Hj Ht'. destruct (decide (j = n)) as [->|Hne].
    - rewrite Ht in Ht'. injection Ht' as <-. exact Hn.
    - apply Hs; [lia|assumption]. }
  unfold past in Hnext |- *.
  destruct (_parse_iso_ts E t) as [dt|] eqn:Hdt; [|intros H; apply Hnext; auto].
  destruct (dt_le dt now) eqn:Hle; [|intros H; apply Hnext; auto].
  destruct (vs !! n) as [v|] eqn:Hv; [|discriminate].
  destruct (is_none v) eqn:Hnone.
  - intros H. apply Hnext; [assumption|]. right. now destruct v.
  - destruct (py_float E v) as [y|e] eqn:Hy; [|discriminate].
    intros [= ->]. exists n, t, v. rewrite Hdt.
    repeat split; try assumption; [lia|]. intros j t' Hj. lia.
Qed.

(** X8. A value [_last_past_value] returns is never dated in the
    future: when it returns a number, its argument is an object whose
    two entries are lists, and the number is the [float] of the value at
    an index whose timestamp parses to an instant not after now; every
    later index was passed over, for a timestamp that is not past or a
    null value. *)
Theorem last_past_value_never_future hourly key st x :
  fst (_last_past_value E hourly key st) = Ok (Some x) ->
  exists d ts vs i t v,
    hourly = PDict d /\
    dict_lookup "time" d = Some (PList ts) /\
    dict_lookup key d = Some (PList vs) /\
    ts !! i = Some t /\ vs !! i = Some v /\
    past (now_of st) t = true /\ py_float E v = Ok x /\
    forall j t', (i < j)%nat -> ts !! j = Some t' ->
      past (now_of st) t' = false \/ vs !! j = Some PNone.
Proof.
  destruct hourly as [| | | | | |d];
    try (rewrite last_past_value_not_dict by congruence; discriminate).
  rewrite last_past_value_dict. cbn [fst]. unfold selected, series_of.
  destruct (dict_lookup "time" d) as [[| | | | |ts|]|] eqn:Ht; try discriminate.
  destruct (dict_lookup key d) as [[| | | | |vs|]|] eqn:Hv; try discriminate.
  destruct ((length ts =? length vs)%nat && negb (bool_decide (ts = [])));
    [|discriminate].
  destruct (scan_back E (now_of st) ts vs (length ts)) as [o|e] eqn:Hs;
    [|discriminate].
  intros [= ->].
  destruct (scan_back_sound _ _ _ _ _ Hs)
    as (i & t & v & Hi & Hti & Hvi & Hp & Hx & Hskip).
  exists d, ts, vs, i, t, v. repeat split; try assumption.
  intros j t' Hj Ht'. apply Hskip; [|assumption].
  split; [lia|]. now apply lookup_lt_Some with t'.
Qed.

Lemma scan_back_app now ts vs ts' vs' n :
  (n <= length ts)%nat -> length ts = length vs ->
  scan_back E now (ts ++ ts') (vs ++ vs') n = scan_back E now ts vs n.
Proof.
  intros Hn Hlen. induction n as [|n IH]; [reflexivity|].
  cbn [scan_back]. rewrite !lookup_app_l by lia. now rewrite IH by lia.
Qed.

(** X9. Points dated in the future do not change what the scan
    selects: with any number of points whose timestamps are not past
    appended to a series, the scan returns what it returns on the
    series alone. *)
Theorem future_points_ignored now ts vs ts' vs' :
  length ts = length vs -> length ts' = length vs' ->
  (forall t, In t ts' -> past now t = false) ->
  scan_back E now (ts ++ ts') (vs ++ vs') (length (ts ++ ts'))
  = scan_back E now ts vs (length ts).
Proof.
  intros Hlen Hlen' Hfut.
  rewrite (scan_back_passes now (ts ++ ts') (vs ++ vs') _ (length ts)).
  - now apply scan_back_app.
  - rewrite length_app. lia.
  - lia.
  - rewrite !length_app. lia.
  - intros j t v Hj Ht _. left. apply Hfut.
    rewrite lookup_app_r in Ht by lia.
    apply list_elem_of_In. now apply list_elem_of_lookup_2 in Ht.
Qed.

(** X10. Once the hourly answer is an object with an ["hourly"] entry,
    the fallback returns normally. When the entry is an object, nothing
    in it makes the collector log: missing or malformed series,
    timestamps that do not parse and values that do not convert give no
    value and no warning. When the entry is not an object, the first
    [_last_past_value] raises [AttributeError], one warning is logged
    and no gauge is written. *)
Theorem hourly_fallback_failures st d h :
  answer air_url_hourly st = Ok (PDict d) -> dict_lookup "hourly" d = Some h ->
  fst (poll_openmeteo_air_hourly E st) = Ok tt /\
  match h with
  | PDict _ => log (snd (poll_openmeteo_air_hourly E st)) = log st
  | _ =>
      log (snd (poll_openmeteo_air_hourly E st))
      = Warn "openmeteo_air: parse hourly failed: " AttributeError :: log st /\
      gauges (snd (poll_openmeteo_air_hourly E st)) = gauges st
  end.
Proof.
  intros Ha Hh.
  destruct (payload_error_ok _ _ _ Ha) as [Hp He].
  destruct (unusable_dict_present d "hourly" h Hh) as [Hu Hg].
  rewrite poll_openmeteo_air_hourly_run. cbn zeta. rewrite Hp, He, Hu, Hg.
  destruct h; cbn [fst snd warned log set_log gauges];
    (split; [reflexivity|]); try split; now frame.
Qed.

(** ** The weather section *)

Lemma weather_section_run st d c :
  answer weather_url st = Ok (PDict d) -> dict_lookup "current" d = Some c ->
  poll_openmeteo_weather E st =
  (Ok tt, finish "openmeteo_weather: parse current failed: " (weather_fields c)
            (recorded "openmeteo_weather" weather_url st)).
Proof.
  intros Ha Hc.
  destruct (payload_error_ok _ _ _ Ha) as [Hp He].
  destruct (unusable_dict_present d "current" c Hc) as [Hu Hg].
  rewrite poll_openmeteo_weather_run. cbn zeta.
  now rewrite Hp, He, Hu, Hg.
Qed.

(** X11. When the weather answer has the three fields and [float]
    takes each of them, the collector publishes the temperature and the
    humidity as they are and the wind speed divided by 3.6 (from km/h
    to m/s), and logs nothing. *)
Theorem weather_publishes_converted st d cd t w h xt xw xh :
  answer weather_url st = Ok (PDict d) ->
  dict_lookup "current" d = Some (PDict cd) ->
  dict_lookup "temperature_2m" cd = Some t -> py_float E t = Ok xt ->
  dict_lookup "wind_speed_10m" cd = Some w -> py_float E w = Ok xw ->
  dict_lookup "relative_humidity_2m" cd = Some h -> py_float E h = Ok xh ->
  fst (poll_openmeteo_weather E st) = Ok tt /\
  gauges (snd (poll_openmeteo_weather E st)) =
    <["weather_humidity_percent" := xh]>
      (<["weather_wind_speed_ms" := PrimFloat.div xw 3.6%float]>
         (<["weather_temperature_c" := xt]> (gauges st))) /\
  log (snd (poll_openmeteo_weather E st)) = log st.
Proof.
  intros Ha Hc Ht Hxt Hw Hxw Hh Hxh.
  rewrite (weather_section_run st d (PDict cd) Ha Hc). cbn [fst snd].
  rewrite finish_gauges, finish_log. unfold weather_fields.
  rewrite !field_present_dict, Ht, Hxt, Hw, Hxw, Hh, Hxh.
  cbn [published first_failure apply_updates id].
  split; [reflexivity|]. split; now frame.
Qed.

(** X12. In the weather section a field that is present and null is a
    failure, not a field to pass over: [float(None)] raises
    [TypeError], the warning of the block is logged and the fields
    after it are not read. A null temperature leaves the three gauges
    as they were; a null wind speed after a temperature that converts
    leaves the temperature published and the humidity unread. *)
Theorem weather_null_field_fails st d cd :
  answer weather_url st = Ok (PDict d) ->
  dict_lookup "current" d = Some (PDict cd) ->
  (dict_lookup "temperature_2m" cd = Some PNone ->
   poll_openmeteo_weather E st =
   (Ok tt,
    warned "openmeteo_weather: parse current failed: " (Some TypeError)
      (recorded "openmeteo_weather" weather_url st)) /\
   gauges (snd (poll_openmeteo_weather E st)) = gauges st /\
   log (snd (poll_openmeteo_weather E st))
   = Warn "openmeteo_weather: parse current failed: " TypeError :: log st) /\
  (forall t xt,
     dict_lookup "temperature_2m" cd = Some t -> py_float E t = Ok xt ->
     dict_lookup "wind_speed_10m" cd = Some PNone ->
     gauges (snd (poll_openmeteo_weather E st))
     = <["weather_temperature_c" := xt]> (gauges st) /\
     log (snd (poll_openmeteo_weather E st))
     = Warn "openmeteo_weather: parse current failed: " TypeError :: log st).
Proof.
  intros Ha Hc.
  rewrite (weather_section_run st d (PDict cd) Ha Hc). cbn [fst snd].
  split.
  - intros Ht. unfold finish, warned, weather_fields.
    rewrite !field_present_dict, Ht.
    cbn [py_float published first_failure apply_updates log set_log gauges
         set_gauges].
    rewrite set_gauges_same. split; [reflexivity|]. split; now frame.
  - intros t xt Ht Hxt Hw.
    rewrite finish_gauges, finish_log. unfold weather_fields.
    rewrite !field_present_dict, Ht, Hxt, Hw.
    cbn [py_float published first_failure apply_updates id].
    split; now frame.
Qed.

(** ** The health metrics *)

Lemma recorded_last_scrape api url s :
  api_last_scrape_timestamp_seconds (recorded api url s) =
  <[api := time_time E (S (S (ticks s)))]>
    (api_last_scrape_timestamp_seconds s).
Proof.
  unfold recorded. cbn zeta.
  cbn [api_last_scrape_timestamp_seconds set_api_last_scrape set_ticks
       set_api_latency_seconds].
  now rewrite (after_fetch_keeps api_last_scrape_timestamp_seconds).
Qed.

Lemma recorded_ticks api url s :
  ticks (recorded api url s) = S (S (S (ticks s))).
Proof. reflexivity. Qed.

Ltac health :=
  payload_cases; frame_at api_latency_seconds;
  frame_at api_last_scrape_timestamp_seconds;
  rewrite ?recorded_latency, ?recorded_last_scrape.

(** X13. The latency and the time of the last scrape are recorded
    before the payload is looked at, so they are there however the call
    ends: the weather and the currency collector add one observation to
    the summary of their source, the difference of the two clock reads
    around the request, and set the last scrape time to the clock read
    after them; the crypto collector does so twice, once per request. *)
Theorem health_recorded_before_parsing st :
  let lat k := PrimFloat.sub (time_time E (S k)) (time_time E k) in
  (forall c api,
     In (c, api) [(poll_openmeteo_weather E, "openmeteo_weather");
                  (poll_fx E, "frankfurter")] ->
     api_latency_seconds (snd (c st)) =
       <[api := lat (ticks st) :: default [] (api_latency_seconds st !! api)]>
         (api_latency_seconds st) /\
     api_last_scrape_timestamp_seconds (snd (c st)) =
       <[api := time_time E (2 + ticks st)%nat]>
         (api_last_scrape_timestamp_seconds st)) /\
  api_latency_seconds (snd (poll_crypto E st)) =
    <["binance" := lat (3 + ticks st)%nat :: lat (ticks st)
                   :: default [] (api_latency_seconds st !! "binance")]>
      (api_latency_seconds st) /\
  api_last_scrape_timestamp_seconds (snd (poll_crypto E st)) =
    <["binance" := time_time E (5 + ticks st)%nat]>
      (api_last_scrape_timestamp_seconds st).
Proof.
  cbn zeta. split; [|split].
  - intros c api. cbn [In]. intros [H|[H|[]]]; injection H as <- <-.
    + rewrite poll_openmeteo_weather_run. split; health; reflexivity.
    + rewrite poll_fx_run. split; health; reflexivity.
  - rewrite poll_crypto_run. cbn zeta. cbn [snd]. health.
    rewrite lookup_insert_eq, insert_insert_eq. reflexivity.
  - rewrite poll_crypto_run. cbn zeta. cbn [snd]. health.
    rewrite insert_insert_eq. reflexivity.
Qed.

(** ** What is logged about a request *)



End Properties.

(** * Examples *)

Module SelectorExamples.

Import Reference SelectorWorlds.

Lemma noon_is_noon :
  _parse_iso_ts W (PStr "2024-01-01T12:00Z") = Some (now_of W initial_state).
Proof. reflexivity. Qed.

(** Three hours ago, one hour ago and in one hour, with values 1, 2 and
    3: the answer is 2. *)
Lemma last_past_value_selects_witness :
  fst (_last_past_value W (PDict (series [PInt 1; PInt 2; PInt 3])) "pm10"
         initial_state)
  = Ok (Some 2%float).
Proof.
  pose proof (last_past_value_selects W (series [PInt 1; PInt 2; PInt 3])
                "pm10" initial_state) as H.
  destruct H as [_ [H _]].
  specialize (H hours [PInt 1; PInt 2; PInt 3] eq_refl eq_refl eq_refl).
  destruct H as [H _]; [discriminate|].
  apply (H 1%nat (PStr "2024-01-01T11:00") (PInt 2));
    [reflexivity|reflexivity|reflexivity|discriminate|].
  intros j t' v' Hj Ht' Hv'.
  destruct j as [|[|[|j]]]; [lia|lia| |discriminate].
  injection Ht' as <-. left. reflexivity.
Defined.

(** C1 as worded fails on a null: the greatest index whose timestamp is
    past is 1 and holds a null, and the function answers with the value
    of index 0. *)
Lemma last_past_value_null_counterexample :
  greatest_past W (now_of W initial_state) hours (length hours) = Some 1%nat /\
  value_at_greatest_past W (now_of W initial_state) hours [PInt 1; PNone; PInt 3]
    = Some PNone /\
  fst (_last_past_value W (PDict (series [PInt 1; PNone; PInt 3])) "pm10"
         initial_state)
  = Ok (Some 1%float).
Proof. repeat split; vm_compute; reflexivity. Qed.

(** A null at the most recent past index: the scan goes on to index 0. *)
Lemma scan_back_skips_witness :
  scan_back W (now_of W initial_state) hours [PInt 1; PNone; PInt 3] 2
  = Ok (Some 1%float).
Proof.
  pose proof (scan_back_skips W (now_of W initial_state) hours
                [PInt 1; PNone; PInt 3] 1 (PStr "2024-01-01T11:00") PNone
                eq_refl eq_refl eq_refl) as H.
  destruct H as [_ [H _]].
  apply (H eq_refl 0%nat (PStr "2024-01-01T09:00") (PInt 1));
    [lia|reflexivity|reflexivity|reflexivity|discriminate|].
  intros j u w Hj. lia.
Defined.

(** C2 as worded fails on a value that does not convert: the scan does
    not go on to index 0, it ends with [None]. *)
Lemma scan_back_unconvertible_counterexample :
  scan_skipping_every_failure W (now_of W initial_state) hours
    [PInt 1; PStr "n/a"; PInt 3] (length hours) = Some 1%float /\
  fst (_last_past_value W (PDict (series [PInt 1; PStr "n/a"; PInt 3])) "pm10"
         initial_state)
  = Ok None.
Proof. split; vm_compute; reflexivity. Qed.

End SelectorExamples.

Module CollectorExamples.

Import Reference CollectorWorlds.

(** The currency collector raises on the number: the turn has published
    the weather, has sent four requests and no request to the crypto or
    tag sources, has logged the fault and has slept. The loop goes on:
    its second turn is a whole turn from that state, in which all seven
    requests are sent, the weather request first. *)
Lemma cycle_survives_faults_witness :
  exists st',
    cycle faulty initial_state = (Ok tt, st') /\
    gauges st' !! "weather_temperature_c" = Some 21.5%float /\
    gauges st' !! "weather_wind_speed_ms" = Some 5%float /\
    requests st' = [fx_url; air_url_hourly; air_url_current; weather_url] /\
    head (log st') = Some (Warn "main loop error: " TypeError) /\
    sleeps st' = [20] /\
    loop faulty 2 initial_state = cycle faulty st' /\
    requests (snd (loop faulty 2 initial_state))
    = [so_url; eth_url; btc_url; fx_url; air_url_hourly; air_url_current;
       weather_url; fx_url; air_url_hourly; air_url_current; weather_url] /\
    sleeps (snd (loop faulty 2 initial_state)) = [20; 20].
Proof.
  destruct (cycle_survives_faults faulty initial_state)
    as [(st' & Hc & Hs & Hfault & _ & Hnext & _) Hloop].
  exists st'. split; [exact Hc|].
  split; [|split; [|split; [|split; [|split; [|split; [|split]]]]]].
  6: { rewrite (Hnext 1%nat).
       destruct (cycle_survives_faults faulty st') as [_ Hfrom].
       destruct (Hfrom 0%nat) as (s0 & Hl0 & _ & Hlast & _).
       injection Hl0 as <-. exact Hlast. }
  6: { vm_compute. reflexivity. }
  6: { destruct (Hloop 2%nat) as (s2 & Hl2 & Hs2 & _).
       rewrite Hl2. cbn [snd]. rewrite Hs2. reflexivity. }
  all: rewrite (Hfault
             [poll_openmeteo_weather faulty; poll_openmeteo_air faulty]
             (poll_fx faulty)
             [poll_crypto faulty; poll_stackoverflow faulty]
             (snd (run_all [poll_openmeteo_weather faulty;
                            poll_openmeteo_air faulty] initial_state))
             TypeError
             (snd (poll_fx faulty
                     (snd (run_all [poll_openmeteo_weather faulty;
                                    poll_openmeteo_air faulty] initial_state)))));
    [vm_compute; reflexivity|reflexivity|vm_compute; reflexivity
    |vm_compute; reflexivity].
Defined.



(** One hourly request follows the failed one, and each gauge gets the
    latest past value of its series: 2 for pm10, 0.5 for pm2.5 (the
    value of 11:00 is null), 41 for the index. *)
Lemma poll_openmeteo_air_falls_back_witness :
  requests (snd (poll_openmeteo_air air_world initial_state))
  = [air_url_hourly; air_url_current] /\
  gauges (snd (poll_openmeteo_air air_world initial_state)) !! "air_pm10_ugm3"
  = Some 2%float /\
  gauges (snd (poll_openmeteo_air air_world initial_state)) !! "air_pm25_ugm3"
  = Some 0.5%float /\
  gauges (snd (poll_openmeteo_air air_world initial_state)) !! "air_us_aqi"
  = Some 41%float.
Proof.
  destruct (poll_openmeteo_air_falls_back air_world initial_state) as [_ H].
  destruct H as (s1 & _ & _ & Hreq & _).
  { left. exists RequestException. reflexivity. }
  split; [exact Hreq|].
  repeat split; vm_compute; reflexivity.
Defined.

(** BTC fails and the ETH price is published beside the BTC price of
    before; a KZT rate that does not convert leaves the EUR rate of
    before, though the answer has one. *)
Lemma failed_fetch_keeps_values_witness :
  gauges (snd (poll_crypto crypto_world with_btc)) !! "crypto_eth_usd"
  = Some 3500.25%float /\
  gauges (snd (poll_crypto crypto_world with_btc)) !! "crypto_btc_usd"
  = Some 60000%float /\
  gauges (snd (poll_fx (fx_world (PStr "n/a")) with_rates)) !! "fx_eur_kzt"
  = Some 0.9%float.
Proof.
  destruct (failed_fetch_keeps_values crypto_world with_btc) as [H _].
  destruct (H RequestException
              [("symbol", PStr "ETHUSDT"); ("price", PStr "3500.25")]
              (PStr "3500.25") 3500.25%float)
    as (_ & He & Hb); try reflexivity.
  split; [exact He|]. split; [rewrite Hb; reflexivity|].
  destruct (failed_fetch_keeps_values (fx_world (PStr "n/a")) with_rates)
    as (_ & _ & _ & _ & _ & _ & _ & _ & Hfx & _).
  destruct (Hfx "fx_eur_kzt") as [Hkept|(d & rates & x & Ha & Hr & Hin & _)].
  - rewrite Hkept. reflexivity.
  - exfalso. vm_compute in Ha. injection Ha as <-.
    vm_compute in Hr. injection Hr as <-.
    vm_compute in Hin. exact Hin.
Defined.

(** The first turn sends the request; in the second turn, 300 seconds
    later, the call is a no-op, and after both turns one request was
    sent to the tag source. *)
Lemma poll_stackoverflow_gated_witness :
  count_requests so_url (snd (cycle offline initial_state)) = 1%nat /\
  poll_stackoverflow offline second_turn
  = (Ok tt, set_ticks (S (ticks second_turn)) second_turn) /\
  LAST_SO_POLL (snd (poll_stackoverflow offline second_turn))
  = 1700000000%float /\
  count_requests so_url
    (snd (cycle offline (snd (cycle offline initial_state)))) = 1%nat.
Proof.
  destruct (poll_stackoverflow_gated offline second_turn) as [H _].
  destruct H as (Hrun & _ & Hlast & _); [vm_compute; reflexivity|].
  split; [vm_compute; reflexivity|]. split; [exact Hrun|].
  split; [rewrite Hlast|]; vm_compute; reflexivity.
Defined.

(** The request of the first turn fails, and the stamp is set all the
    same, to the clock read before the request is timed. *)
Lemma poll_stackoverflow_stamps_first_witness :
  answer offline so_url (gate_passed offline initial_state)
  = Raise RequestException /\
  LAST_SO_POLL (snd (poll_stackoverflow offline initial_state))
  = 1700000000%float /\
  requests (snd (poll_stackoverflow offline initial_state)) = [so_url].
Proof.
  destruct (poll_stackoverflow_stamps_first offline initial_state)
    as (Hreq & Hlast & _); [vm_compute; reflexivity|].
  split; [reflexivity|]. split; [rewrite Hlast; reflexivity|exact Hreq].
Defined.



End CollectorExamples.

Module FurtherExamples.

Import Reference CollectorWorlds.

(** The currency source answers with an object and every other request
    fails: the turn ends without a fault. *)
Lemma object_payloads_never_fault_witness :
  exists s,
    run_all (collectors same_answers) initial_state = (Ok tt, s) /\
    cycle same_answers initial_state
    = (Ok tt, set_sleeps (SCRAPE_INTERVAL :: sleeps s) s).
Proof.
  destruct (object_payloads_never_fault same_answers initial_state) as [_ H];
    [|exact H].
  intros n url v. unfold same_answers, steady_world, fx_table. cbn [http].
  destruct (String.eqb url fx_url); cbn; intros Hv; [|discriminate].
  right. injection Hv as <-. eexists. reflexivity.
Defined.

(** The number 5 as the answer of the currency source: the membership
    test on it raises [TypeError], which reaches the loop. *)
Lemma only_type_errors_escape_witness :
  let st := snd (run_all [poll_openmeteo_weather faulty;
                          poll_openmeteo_air faulty] initial_state) in
  poll_fx faulty st = (Raise TypeError, snd (poll_fx faulty st)) /\
  forall s', fst (poll_crypto faulty s') = Ok tt.
Proof.
  cbn zeta.
  assert (H : poll_fx faulty
                (snd (run_all [poll_openmeteo_weather faulty;
                               poll_openmeteo_air faulty] initial_state))
              = (Raise TypeError,
                 snd (poll_fx faulty
                        (snd (run_all [poll_openmeteo_weather faulty;
                                       poll_openmeteo_air faulty]
                                initial_state)))))
    by (vm_compute; reflexivity).
  split; [exact H|].
  refine (proj2 (only_type_errors_escape faulty (poll_fx faulty) _ TypeError _
                   _ H)).
  right. right. left. reflexivity.
Defined.

(** The currency collector leaves the BTC price as it was. *)
Lemma collector_writes_own_gauges_witness :
  gauges (snd (poll_fx same_answers with_btc)) !! "crypto_btc_usd"
  = Some 60000%float /\
  gauges (snd (poll_fx same_answers with_btc)) !! "fx_usd_kzt"
  = Some 480.5%float.
Proof.
  split; [|vm_compute; reflexivity].
  rewrite (collector_writes_own_gauges same_answers (poll_fx same_answers)
             fx_names with_btc "crypto_btc_usd").
  - reflexivity.
  - right. right. left. reflexivity.
  - cbn. intros [H|[H|[]]]; discriminate.
Defined.

(** At noon the value 2 of 11:00 is returned, and it has a past
    timestamp. *)
Lemma last_past_value_never_future_witness :
  exists t v,
    past SelectorWorlds.W (now_of SelectorWorlds.W initial_state) t = true /\
    py_float SelectorWorlds.W v = Ok 2%float.
Proof.
  destruct (last_past_value_never_future SelectorWorlds.W
              (PDict (SelectorWorlds.series [PInt 1; PInt 2; PInt 3]))
              "pm10" initial_state 2%float)
    as (d & ts & vs & i & t & v & _ & _ & _ & _ & _ & Hp & Hx & _);
    [vm_compute; reflexivity|].
  exists t, v. split; assumption.
Defined.

(** With the point of 13:00 or without it, the scan at noon returns the
    value of 11:00. *)
Lemma future_points_ignored_witness :
  scan_back SelectorWorlds.W (now_of SelectorWorlds.W initial_state)
    ([PStr "2024-01-01T09:00"; PStr "2024-01-01T11:00"]
     ++ [PStr "2024-01-01T13:00"])%list
    ([PInt 1; PInt 2] ++ [PInt 3])%list 3
  = Ok (Some 2%float).
Proof.
  change 3%nat
    with (length ([PStr "2024-01-01T09:00"; PStr "2024-01-01T11:00"]
                  ++ [PStr "2024-01-01T13:00"])%list).
  rewrite (future_points_ignored SelectorWorlds.W).
  - vm_compute. reflexivity.
  - reflexivity.
  - reflexivity.
  - intros t [<-|[]]. vm_compute. reflexivity.
Defined.

(** The hourly answer of the fallback is an object: nothing is logged
    about it, though the pm2.5 series has a null. *)
Lemma hourly_fallback_failures_witness :
  let st := snd (poll_openmeteo_air_current air_world initial_state) in
  fst (poll_openmeteo_air_hourly air_world st) = Ok tt /\
  log (snd (poll_openmeteo_air_hourly air_world st)) = log st.
Proof.
  cbn zeta.
  apply (hourly_fallback_failures air_world
           (snd (poll_openmeteo_air_current air_world initial_state))
           [("hourly",
             PDict [("time", PList [PStr "2024-01-01T09:00";
                                    PStr "2024-01-01T11:00";
                                    PStr "2024-01-01T13:00"]);
                    ("pm10", PList [PInt 1; PInt 2; PInt 3]);
                    ("pm2_5", PList [PFloat 0.5%float; PNone; PInt 9]);
                    ("us_aqi", PList [PInt 40; PInt 41; PInt 42])])]
           (PDict [("time", PList [PStr "2024-01-01T09:00";
                                   PStr "2024-01-01T11:00";
                                   PStr "2024-01-01T13:00"]);
                   ("pm10", PList [PInt 1; PInt 2; PInt 3]);
                   ("pm2_5", PList [PFloat 0.5%float; PNone; PInt 9]);
                   ("us_aqi", PList [PInt 40; PInt 41; PInt 42])]));
    vm_compute; reflexivity.
Defined.

(** 18 km/h is published as 5 m/s. *)
Lemma weather_publishes_converted_witness :
  gauges (snd (poll_openmeteo_weather faulty initial_state))
    !! "weather_wind_speed_ms" = Some 5%float /\
  gauges (snd (poll_openmeteo_weather faulty initial_state))
    !! "weather_temperature_c" = Some 21.5%float /\
  log (snd (poll_openmeteo_weather faulty initial_state)) = [].
Proof.
  destruct (weather_publishes_converted faulty initial_state
              [("current",
                PDict [("temperature_2m", PFloat 21.5%float);
                       ("wind_speed_10m", PInt 18);
                       ("relative_humidity_2m", PInt 40)])]
              [("temperature_2m", PFloat 21.5%float);
               ("wind_speed_10m", PInt 18);
               ("relative_humidity_2m", PInt 40)]
              (PFloat 21.5%float) (PInt 18) (PInt 40)
              21.5%float 18%float 40%float)
    as (_ & Hg & Hl); try (vm_compute; reflexivity).
  rewrite Hg, Hl. repeat split; vm_compute; reflexivity.
Defined.

(** The temperature is published, the null wind speed raises, and the
    humidity of the same answer is not published. *)
Lemma weather_null_field_fails_witness :
  gauges (snd (poll_openmeteo_weather wind_null_world initial_state))
  = <["weather_temperature_c" := 21.5%float]> ∅ /\
  log (snd (poll_openmeteo_weather wind_null_world initial_state))
  = [Warn "openmeteo_weather: parse current failed: " TypeError].
Proof.
  destruct (weather_null_field_fails wind_null_world initial_state
              [("current",
                PDict [("temperature_2m", PFloat 21.5%float);
                       ("wind_speed_10m", PNone);
                       ("relative_humidity_2m", PInt 40)])]
              [("temperature_2m", PFloat 21.5%float);
               ("wind_speed_10m", PNone);
               ("relative_humidity_2m", PInt 40)])
    as [_ H]; try (vm_compute; reflexivity).
  apply (H (PFloat 21.5%float) 21.5%float); reflexivity.
Defined.


End FurtherExamples.
